(** * stripe2sevdesk: the webhook connector of src/index.ts

    The connector receives Stripe webhook events and pushes the changes to
    the SevDesk REST API.  This development embeds [src/index.ts]:

    - JavaScript values that the program handles dynamically ([jsval]),
      the Stripe entities it reads ([Customer], [Invoice], ...);
    - asynchronous functions as trees of outbound requests ([prog]), with
      an interpreter against an arbitrary environment ([run]);
    - the handlers [onInvoiceFinalized], [onInvoiceVoided], [onInvoicePaid],
      [onCustomerUpdated], [createOrUpdateContact], [sevDeskClient] and the
      entry point [webhook];
    - the properties of the specification, proved or refuted on them. *)

From Stdlib Require Import ZArith QArith String Ascii List.
From stdpp Require Import base option numbers strings list gmap.

Set Warnings "-register-all".

Open Scope string_scope.
Open Scope list_scope.
Open Scope Z_scope.

(** ** JavaScript values *)

(** Values whose shape the program does not fix: response bodies, ids handed
    back by the two platforms, request payloads (object literals).  Numbers
    are IEEE doubles in the runtime; the program only copies them, except for
    [taxRate / 100], which is taken on the rationals. *)
Inductive jsval : Type :=
| JUndefined
| JNull
| JBool (b : bool)
| JNum (n : Q)
| JStr (s : string)
| JArr (items : list jsval)
| JObj (fields : list (string * jsval)).

Definition JInt (z : Z) : jsval := JNum (inject_Z z).

(** What can be thrown, or be the reason of a rejected promise. *)
Inductive exn : Type :=
| Error (message : string)
| TypeError (message : string)
| Reason (r : jsval).

(** Completion of a synchronous call (return or throw) and settlement of a
    promise (fulfilled or rejected). *)
Inductive outcome (A : Type) : Type :=
| Ok (a : A)
| Fail (e : exn).
Arguments Ok {A} a.
Arguments Fail {A} e.

Fixpoint assoc (k : string) (fields : list (string * jsval)) : option jsval :=
  match fields with
  | [] => None
  | (k', v) :: rest => if String.eqb k k' then Some v else assoc k rest
  end.

(** [v.k].  Reading a property of [undefined] or [null] throws; a missing
    property reads as [undefined].  Properties of primitives and arrays that
    the program never reads ([length] and the like) are left out. *)
Definition jget (v : jsval) (k : string) : outcome jsval :=
  match v with
  | JUndefined =>
      Fail (TypeError ("Cannot read properties of undefined (reading '" +:+ k +:+ "')"))
  | JNull =>
      Fail (TypeError ("Cannot read properties of null (reading '" +:+ k +:+ "')"))
  | JObj fields => Ok (default JUndefined (assoc k fields))
  | _ => Ok JUndefined
  end.

(** [v?.k] *)
Definition jget_opt (v : jsval) (k : string) : jsval :=
  match v with
  | JObj fields => default JUndefined (assoc k fields)
  | _ => JUndefined
  end.

(** Truthiness, as used by [taxRate ? ... : null]. *)
Definition truthy (v : jsval) : bool :=
  match v with
  | JUndefined | JNull => false
  | JBool b => b
  | JNum n => negb (Qeq_bool n 0)
  | JStr s => negb (String.eqb s "")
  | JArr _ | JObj _ => true
  end.

(** [v / d] on numbers ([NaN] is not represented: other operands give
    [undefined] here, and the program never divides one). *)
Definition jdiv (v : jsval) (d : Z) : jsval :=
  match v with
  | JNum n => JNum (n / inject_Z d)
  | _ => JUndefined
  end.

(** [Object.assign(target, source)] on object literals. *)
Fixpoint obj_set (k : string) (v : jsval) (fields : list (string * jsval))
  : list (string * jsval) :=
  match fields with
  | [] => [(k, v)]
  | (k', v') :: rest =>
      if String.eqb k k' then (k, v) :: rest else (k', v') :: obj_set k v rest
  end.

Definition obj_assign (target source : list (string * jsval))
  : list (string * jsval) :=
  fold_left (fun acc kv => obj_set (fst kv) (snd kv) acc) source target.

Definition of_string (o : option string) : jsval :=
  match o with Some s => JStr s | None => JNull end.

Definition of_number (o : option Z) : jsval :=
  match o with Some z => JInt z | None => JNull end.

(** [String.prototype.toUpperCase] on strings of ASCII characters, where it
    changes the 26 small letters and nothing else (currency codes are three
    ASCII letters).  The case mapping of other characters is not modelled:
    what is stated of the result is stated for ASCII strings. *)
Definition upper_ascii (c : ascii) : ascii :=
  let n := nat_of_ascii c in
  if ((97 <=? n) && (n <=? 122))%nat then ascii_of_nat (n - 32) else c.

Fixpoint toUpperCase (s : string) : string :=
  match s with
  | EmptyString => EmptyString
  | String c rest => String (upper_ascii c) (toUpperCase rest)
  end.

(** ** Stripe entities *)

(** A metadata entry read from a Stripe object: the key may be missing
    ([undefined]); the program also tests the value against [null]. *)
Inductive mval : Type :=
| MUndefined
| MNull
| MStr (s : string).

Definition mval_js (m : mval) : jsval :=
  match m with
  | MUndefined => JUndefined
  | MNull => JNull
  | MStr s => JStr s
  end.

(** [String(m)] and [`${m}`] *)
Definition mval_string (m : mval) : string :=
  match m with
  | MUndefined => "undefined"
  | MNull => "null"
  | MStr s => s
  end.

(** [metadata.sevdesk_id] on a metadata object. *)
Definition sevdesk_id (metadata : gmap string (option string)) : mval :=
  match metadata !! "sevdesk_id" with
  | None => MUndefined
  | Some None => MNull
  | Some (Some s) => MStr s
  end.

Module TaxId.
Record t : Type := { type : string; value : string }.
End TaxId.

Module Customer.
(** [Stripe.Customer]: [tax_ids] is [None] when the property is undefined,
    [metadata] is [None] when it is [null]. *)
Record t : Type :=
  { id : string;
    name : option string;
    tax_exempt : option string;
    tax_ids : option (list TaxId.t);
    metadata : option (gmap string (option string)) }.
End Customer.

Module TaxAmount.
Record t : Type := { tax_rate : string }.
End TaxAmount.

Module TaxRate.
Record t : Type := { percentage : Q }.
End TaxRate.

Module InvoiceLineItem.
(** [tax_amounts] is [None] when the property is [null] or undefined. *)
Record t : Type :=
  { quantity : option Z;
    amount : Z;
    description : option string;
    tax_amounts : option (list TaxAmount.t) }.
End InvoiceLineItem.

Module Invoice.
(** [Stripe.Invoice]; [lines] stands for [lines.data], [customer] for the
    customer id the event carries. *)
Record t : Type :=
  { id : string;
    number : option string;
    created : Z;
    currency : string;
    customer_tax_exempt : option string;
    amount_paid : Z;
    customer : string;
    lines : list InvoiceLineItem.t;
    metadata : option (gmap string (option string)) }.
End Invoice.

(** [process.env] and the clock, as far as the program reads them. *)
Record runtime : Type :=
  { STRIPE_WEBHOOK_SECRET : option string;
    SEVDESK_API_KEY_SECRET : option string;
    SEVDESK_CHECK_ACCOUNT : option string;
    (** [new Date().toLocaleDateString('de')] *)
    today : string }.

(** [String(process.env.X)] *)
Definition env_string (v : option string) : string :=
  match v with Some s => s | None => "undefined" end.

Definition env_js (v : option string) : jsval :=
  match v with Some s => JStr s | None => JUndefined end.

(** ** Outbound requests *)

(** [axios.create({baseURL, headers: {Authorization}})] *)
Record AxiosInstance : Type := { baseURL : string; Authorization : string }.

(** Every request the program sends to one of its collaborators: the secret
    manager, the Stripe API, the SevDesk API (through an axios client). *)
Inductive call : Type :=
| secretManager_accessSecretVersion (name : string)
| stripe_customers_retrieve (id : string)
| stripe_customers_update (id : string) (params : jsval)
| stripe_invoices_update (id : string) (params : jsval)
| stripe_taxRates_retrieve (id : string)
| client_post (client : AxiosInstance) (url : string) (data : jsval)
| client_put (client : AxiosInstance) (url : string) (data : jsval).

(** What a fulfilled request hands back: the secret text, a Stripe object,
    or, for axios, the body of the response ([response.data]). *)
Definition call_ret (c : call) : Type :=
  match c with
  | secretManager_accessSecretVersion _ => string
  | stripe_customers_retrieve _ => Customer.t
  | stripe_customers_update _ _ => jsval
  | stripe_invoices_update _ _ => jsval
  | stripe_taxRates_retrieve _ => TaxRate.t
  | client_post _ _ _ => jsval
  | client_put _ _ _ => jsval
  end.

(** The [AxiosResponse] object; the program reads only [data]. *)
Definition AxiosResponse (data : jsval) : jsval := JObj [("data", data)].

(** A request to the accounting platform. *)
Definition is_accounting (c : call) : bool :=
  match c with
  | client_post _ _ _ | client_put _ _ _ => true
  | _ => false
  end.

(** A request that writes linkage metadata back to the payment platform. *)
Definition is_writeback (c : call) : bool :=
  match c with
  | stripe_customers_update _ _ | stripe_invoices_update _ _ => true
  | _ => false
  end.

(** ** Asynchronous functions *)

(** Variables captured by a callback live in a store; a callback that runs
    later can only change the store. *)
Definition store : Type := list jsval.

Definition store_write (x : nat) (v : jsval) (h : store) : store := <[x := v]> h.

Definition store_read (x : nat) (h : store) : jsval := default JUndefined (h !! x).

(** The body of an [async] function (or a promise chain), up to its result:
    - [Await c k]: send [c] and suspend until it settles ([await], [.then]);
    - [Fork c cb k]: send [c], register [cb] on its fulfilment and go on
      without waiting ([p.then(cb)] whose promise is dropped);
    - [Let]/[Read]: a [let] variable that a callback captures. *)
Inductive prog (A : Type) : Type :=
| Ret (a : A)
| Throw (e : exn)
| Await (c : call) (k : outcome (call_ret c) -> prog A)
| Fork (c : call) (cb : call_ret c -> store -> store) (k : prog A)
| Let (v : jsval) (k : nat -> prog A)
| Read (x : nat) (k : jsval -> prog A).
Arguments Ret {A} a.
Arguments Throw {A} e.
Arguments Await {A} c k.
Arguments Fork {A} c cb k.
Arguments Let {A} v k.
Arguments Read {A} x k.

Fixpoint bind {A B : Type} (p : prog A) (f : A -> prog B) : prog B :=
  match p with
  | Ret a => f a
  | Throw e => Throw e
  | Await c k => Await c (fun r => bind (k r) f)
  | Fork c cb k => Fork c cb (bind k f)
  | Let v k => Let v (fun x => bind (k x) f)
  | Read x k => Read x (fun v => bind (k v) f)
  end.

#[global] Instance prog_ret : MRet prog := @Ret.
#[global] Instance prog_bind : MBind prog := fun A B f p => bind p f.

(** [await c]: a rejection is thrown at the [await]. *)
Definition await (c : call) : prog (call_ret c) :=
  Await c (fun r => match r with Ok v => Ret v | Fail e => Throw e end).

(** A synchronous completion inside an asynchronous body. *)
Definition lift {A : Type} (r : outcome A) : prog A :=
  match r with Ok a => Ret a | Fail e => Throw e end.

(** [try { p } catch (err) { h err }] *)
Fixpoint try_catch {A : Type} (p : prog A) (h : exn -> prog A) : prog A :=
  match p with
  | Ret a => Ret a
  | Throw e => h e
  | Await c k => Await c (fun r => try_catch (k r) h)
  | Fork c cb k => Fork c cb (try_catch k h)
  | Let v k => Let v (fun x => try_catch (k x) h)
  | Read x k => Read x (fun v => try_catch (k v) h)
  end.

(** [Array.prototype.map] with a callback that may throw or send requests. *)
Fixpoint map_prog {A B : Type} (f : A -> prog B) (l : list A) : prog (list B) :=
  match l with
  | [] => Ret []
  | a :: rest => b ← f a; bs ← map_prog f rest; Ret (b :: bs)
  end.

(** ** The HTTP response object *)

Inductive body : Type :=
| Json (v : jsval)
| Text (s : string).

(** What the run of a request leaves behind, in order.  [Responded code b]
    is a call of [res.json] or [res.send] that wrote [b] while the status
    code of the response was [code]. *)
Inductive effect : Type :=
| Requested (c : call)
| Responded (status : Z) (b : body)
| Uncaught (e : exn)
| Logged (v : jsval).

(** The collaborators: how each request settles, given everything that
    happened before (the request itself is the last entry), and how many of
    the registered callbacks have become due when the program suspends. *)
Record world : Type :=
  { reply : list effect -> forall c : call, outcome (call_ret c);
    due : list effect -> nat;
    (** whether, when a handler that waited for a request settles, Sentry's
        flush has resolved and the response has been ended *)
    flushed : list effect -> bool }.

Arguments reply w history c : rename.

(** A callback registered by [Fork], not yet run. *)
Record job : Type :=
  { job_call : call; job_cb : call_ret job_call -> store -> store }.

Record state : Type :=
  { log : list effect;
    vars : store;
    jobs : list job }.

Definition emit (e : effect) (s : state) : state :=
  {| log := log s ++ [e]; vars := vars s; jobs := jobs s |}.

(** Runs one registered callback: on fulfilment it updates the store, on
    rejection nothing handles the reason. *)
Definition run_job (w : world) (j : job) (s : state) : state :=
  match reply w (log s) (job_call j) with
  | Ok v => {| log := log s; vars := job_cb j v (vars s); jobs := jobs s |}
  | Fail e => emit (Uncaught e) s
  end.

(** The callbacks that are due run while the program is suspended. *)
Definition run_due (w : world) (s : state) : state :=
  let n := due w (log s) in
  fold_left (fun s' j => run_job w j s')
            (take n (jobs s))
            {| log := log s; vars := vars s; jobs := drop n (jobs s) |}.

Fixpoint run {A : Type} (w : world) (p : prog A) (s : state) : state * outcome A :=
  match p with
  | Ret a => (s, Ok a)
  | Throw e => (s, Fail e)
  | Await c k =>
      let s1 := run_due w (emit (Requested c) s) in
      run w (k (reply w (log s1) c)) s1
  | Fork c cb k =>
      let s1 := emit (Requested c) s in
      run w k {| log := log s1; vars := vars s1;
                 jobs := jobs s1 ++ [{| job_call := c; job_cb := cb |}] |}
  | Let v k =>
      run w (k (List.length (vars s)))
          {| log := log s; vars := vars s ++ [v]; jobs := jobs s |}
  | Read x k => run w (k (store_read x (vars s))) s
  end.

(** The synchronous part of a call to an asynchronous function: it runs up to
    the first request it waits for, which is sent before the caller goes on. *)
Inductive paused (A : Type) : Type :=
| Settled (r : outcome A)
| Suspended (c : call) (k : outcome (call_ret c) -> prog A).
Arguments Settled {A} r.
Arguments Suspended {A} c k.

Fixpoint start {A : Type} (p : prog A) (s : state) : state * paused A :=
  match p with
  | Ret a => (s, Settled (Ok a))
  | Throw e => (s, Settled (Fail e))
  | Await c k => (emit (Requested c) s, Suspended c k)
  | Fork c cb k =>
      let s1 := emit (Requested c) s in
      start k {| log := log s1; vars := vars s1;
                 jobs := jobs s1 ++ [{| job_call := c; job_cb := cb |}] |}
  | Let v k =>
      start (k (List.length (vars s)))
            {| log := log s; vars := vars s ++ [v]; jobs := jobs s |}
  | Read x k => start (k (store_read x (vars s))) s
  end.

(** The rest of the call, once the event loop takes over. *)
Definition resume {A : Type} (w : world) (p : paused A) (s : state)
  : state * outcome A :=
  match p with
  | Settled r => (s, r)
  | Suspended c k =>
      let s1 := run_due w s in
      run w (k (reply w (log s1) c)) s1
  end.

Definition initial : state := {| log := []; vars := []; jobs := [] |}.

(** The requests of a log, in order. *)
Definition requests (l : list effect) : list call :=
  omap (fun e => match e with Requested c => Some c | _ => None end) l.

(** ** The handlers *)

Section Handlers.

Variable rt : runtime.

Definition accessSecretVersion (name : string) : prog string :=
  version ← await (secretManager_accessSecretVersion name);
  Ret version.

Definition sevDeskClient : prog AxiosInstance :=
  apiKey ← accessSecretVersion (env_string (SEVDESK_API_KEY_SECRET rt));
  Ret {| baseURL := "https://my.sevdesk.de/api/v1/"; Authorization := apiKey |}.

(** [client.post(url, data)] and [client.put(url, data)] resolve to the
    response object. *)
Definition post (client : AxiosInstance) (url : string) (data : jsval) : prog jsval :=
  data' ← await (client_post client url data);
  Ret (AxiosResponse data').

Definition put (client : AxiosInstance) (url : string) (data : jsval) : prog jsval :=
  data' ← await (client_put client url data);
  Ret (AxiosResponse data').

(** [x.data.id] *)
Definition data_id (x : jsval) : outcome jsval :=
  match jget x "data" with
  | Ok d => jget d "id"
  | Fail e => Fail e
  end.

(** ['s' === x] for a property that holds a string or nothing. *)
Definition is_string (s : string) (x : option string) : bool :=
  match x with Some s' => String.eqb s s' | None => false end.

(** The payload of a contact: the four fixed fields, and the VAT number and
    tax type when the customer carries a tax id. *)
Definition contact_data (customer : Customer.t) : jsval :=
  let data :=
    [("name", of_string (Customer.name customer));
     ("category", JObj [("id", JInt 3); ("objectName", JStr "Category")]);
     ("description", JStr (Customer.id customer));
     ("exemptVat", JBool (is_string "exempt" (Customer.tax_exempt customer)))] in
  match Customer.tax_ids customer with
  | Some (taxId :: _) =>
      let eu_vat := String.eqb "eu_vat" (TaxId.type taxId) in
      JObj (obj_assign data
              [("vatNumber", if eu_vat then JStr (TaxId.value taxId) else JNull);
               ("taxType", if eu_vat then JStr "eu" else JNull)])
  | _ => JObj data
  end.

(** [customerId] is [MUndefined] when the caller leaves the argument out. *)
Definition createOrUpdateContact (customer : Customer.t) (customerId : mval)
  : prog jsval :=
  client ← sevDeskClient;
  let data := contact_data customer in
  match customerId with
  | MUndefined =>
      response ← post client "/Contact" data;
      id ← lift (data_id response);
      await (stripe_customers_update (Customer.id customer)
               (JObj [("metadata", JObj [("sevdesk_id", id)])]))
  | _ => put client ("/Contact/" +:+ mval_string customerId) data
  end.

(** [null === x.metadata || null === x.metadata.sevdesk_id] *)
Definition no_link (metadata : option (gmap string (option string))) : bool :=
  match metadata with
  | None => true
  | Some m => match sevdesk_id m with MNull => true | _ => false end
  end.

(** [x.metadata.sevdesk_id] *)
Definition metadata_sevdesk_id (metadata : option (gmap string (option string)))
  : outcome mval :=
  match metadata with
  | None => Fail (TypeError "Cannot read properties of null (reading 'sevdesk_id')")
  | Some m => Ok (sevdesk_id m)
  end.

Definition onCustomerUpdated (customer : Customer.t) : prog jsval :=
  if no_link (Customer.metadata customer) then
    createOrUpdateContact customer MUndefined
  else
    customerId ← lift (metadata_sevdesk_id (Customer.metadata customer));
    createOrUpdateContact customer customerId.

Definition onInvoicePaid (invoice : Invoice.t) : prog jsval :=
  if no_link (Invoice.metadata invoice) then
    Throw (Error "No SevDesk link found.")
  else
    invoiceId ← lift (metadata_sevdesk_id (Invoice.metadata invoice));
    client ← sevDeskClient;
    put client ("/Invoice/" +:+ mval_string invoiceId +:+ "/bookAmount")
      (JObj [("amount", JInt (Invoice.amount_paid invoice));
             ("date", JStr (today rt));
             ("type", JStr "N");
             ("checkAccount",
               JObj [("id", env_js (SEVDESK_CHECK_ACCOUNT rt));
                     ("objectName", JStr "CheckAccount")])]).

Definition onInvoiceVoided (invoice : Invoice.t) : prog jsval :=
  if no_link (Invoice.metadata invoice) then
    Throw (Error "No SevDesk link found.")
  else
    invoiceId ← lift (metadata_sevdesk_id (Invoice.metadata invoice));
    client ← sevDeskClient;
    post client ("/Invoice/" +:+ mval_string invoiceId +:+ "/cancelInvoice") JUndefined.

(** The callback of [stripe.taxRates.retrieve(...).then(...)]: it assigns
    the captured variable [taxRate]. *)
Definition set_taxRate (taxRate : nat) (stripeTaxRate : TaxRate.t) : store -> store :=
  store_write taxRate (JNum (TaxRate.percentage stripeTaxRate)).

(** The callback of [lines.data.map]: one accounting line item. *)
Definition invoice_item (line : InvoiceLineItem.t) : prog jsval :=
  Let JNull (fun taxRate =>
    _ ← match InvoiceLineItem.tax_amounts line with
        | Some (first :: others) =>
            if (1 <? List.length (first :: others))%nat then
              Throw (Error "Multiple tax rates per item are not supported.")
            else
              Fork (stripe_taxRates_retrieve (TaxAmount.tax_rate first))
                   (set_taxRate taxRate) (Ret tt)
        | _ => Ret tt
        end;
    Read taxRate (fun taxRate_now =>
      Ret (JObj [("quantity", of_number (InvoiceLineItem.quantity line));
                 ("price", JInt (InvoiceLineItem.amount line));
                 ("name", of_string (InvoiceLineItem.description line));
                 ("text", JNull);
                 ("discount", JNull);
                 ("taxRate", if truthy taxRate_now then jdiv taxRate_now 100 else JNull);
                 ("priceGross", JNull);
                 ("priceTax", JNull);
                 ("mapAll", JBool true);
                 ("objectName", JStr "InvoicePos")]))).

Definition taxType (customer_tax_exempt : option string) : string :=
  if is_string "exempt" customer_tax_exempt then "eu"
  else if is_string "reverse" customer_tax_exempt then "noteu"
  else "default".

(** The body of [/Invoice/Factory/saveInvoice]. *)
Definition invoice_data (invoice : Invoice.t) (contactId : jsval)
    (invoiceItems : list jsval) : jsval :=
  JObj [("invoice",
          JObj [("invoiceNumber", of_string (Invoice.number invoice));
                ("contact", JObj [("id", contactId); ("objectName", JStr "Contact")]);
                ("invoiceDate", JInt (Invoice.created invoice));
                ("deliveryDate", JInt 0);
                ("deliveryDateUntil", JInt 0);
                ("discount", JInt 0);
                ("status", JInt 200);
                ("contactPerson", JNull);
                ("smallSettlement", JBool false);
                ("taxType", JStr (taxType (Invoice.customer_tax_exempt invoice)));
                ("currency", JStr (toUpperCase (Invoice.currency invoice)));
                ("invoiceType", JStr "RE");
                ("sendType", JStr "VM")]);
        ("invoicePosSave", JArr invoiceItems)].

(** Lines 92 to 98: the contact the invoice is filed under. *)
Definition contact_of (customer : Customer.t) : prog jsval :=
  if negb (no_link (Customer.metadata customer)) then
    contactId ← lift (metadata_sevdesk_id (Customer.metadata customer));
    Ret (mval_js contactId)
  else
    contact ← createOrUpdateContact customer MUndefined;
    lift (data_id contact).

(** Lines 127 to 158: the [try] block; its [catch] rejects with what it
    caught. *)
Definition save_invoice (client : AxiosInstance) (invoice : Invoice.t)
    (contactId : jsval) (invoiceItems : list jsval) : prog jsval :=
  try_catch
    (response ← post client "/Invoice/Factory/saveInvoice"
                  (invoice_data invoice contactId invoiceItems);
     invoiceId ← lift (data_id response);
     _ ← await (stripe_invoices_update (Invoice.id invoice)
                  (JObj [("metadata", JObj [("sevdesk_id", invoiceId)])]));
     Ret response)
    (fun err => Throw err).

Definition onInvoiceFinalized (invoice : Invoice.t) : prog jsval :=
  client ← sevDeskClient;
  customer ← await (stripe_customers_retrieve (Invoice.customer invoice));
  contactId ← contact_of customer;
  invoiceItems ← map_prog invoice_item (Invoice.lines invoice);
  save_invoice client invoice contactId invoiceItems.

End Handlers.

(** ** The entry point *)

(** The kinds of event the [switch] of [webhook] tells apart. *)
Inductive topic : Type :=
| invoice_finalized
| invoice_paid
| invoice_voided
| customer_created
| customer_updated
| payout_paid
| unsupported.

Definition classify (type : string) : topic :=
  if String.eqb type "invoice.finalized" then invoice_finalized
  else if String.eqb type "invoice.paid" then invoice_paid
  else if String.eqb type "invoice.voided" then invoice_voided
  else if String.eqb type "customer.created" then customer_created
  else if String.eqb type "customer.updated" then customer_updated
  else if String.eqb type "payout.paid" then payout_paid
  else unsupported.

(** What [event.data.object] is for each kind of event. *)
Definition payload (t : topic) : Type :=
  match t with
  | invoice_finalized | invoice_paid | invoice_voided => Invoice.t
  | customer_created | customer_updated => Customer.t
  | payout_paid | unsupported => jsval
  end.

Record Event : Type := { type : string; object : payload (classify type) }.

Record Request : Type := { rawBody : string; stripe_signature : option string }.

(** [stripe.webhooks.constructEvent] returns the event or throws a
    signature verification error that carries a message. *)
Inductive verification : Type :=
| Verified (event : Event)
| SignatureVerificationError (message : string).

(** The response object [res] of the HTTP framework: [status] sets the code;
    [json] and [send] write a response, and throw once the headers are sent.
    [Sentry.GCPFunction.wrapHttpFunction] replaces [res.end] by a function
    that ends the response only after Sentry's flush has resolved, in a later
    turn of the event loop: until then the headers are not sent, and a
    further [json] or [send] writes again ([flush]). *)
Record Response : Type := { statusCode : Z; headersSent : bool }.

Definition status (code : Z) (res : Response) : Response :=
  {| statusCode := code; headersSent := headersSent res |}.

Definition send (b : body) (res : Response) (s : state) : state * Response * option exn :=
  if headersSent res then
    (s, res, Some (Error "Cannot set headers after they are sent to the client"))
  else
    (emit (Responded (statusCode res) b) s, res, None).

Definition flush (res : Response) : Response :=
  {| statusCode := statusCode res; headersSent := true |}.

(** [error?.message] and [error?.response] *)
Definition message_of (error : exn) : jsval :=
  match error with
  | Error m | TypeError m => JStr m
  | Reason r => jget_opt r "message"
  end.

Definition response_of (error : exn) : jsval :=
  match error with
  | Error _ | TypeError _ => JUndefined
  | Reason r => jget_opt r "response"
  end.

(** [handleError] always ends by throwing; it runs as a promise callback, so
    what it throws is a rejection nobody handles. *)
Definition handleError (res : Response) (error : exn) (s : state) : state * Response :=
  let s1 := emit (Logged (response_of error)) s in
  let '(s2, res2, thrown) :=
    send (Json (JObj [("error", JBool true); ("message", message_of error)]))
         (status 500 res) s1 in
  match thrown with
  | Some e => (emit (Uncaught e) s2, res2)
  | None => (emit (Uncaught (Error "An error occurred")) s2, res2)
  end.

(** [.then(() => res.json({received: true})).catch(error => handleError(res, error))]
    on the promise of a handler. *)
Definition react (res : Response) (r : outcome jsval) (s : state) : state * Response :=
  match r with
  | Ok _ =>
      let '(s1, res1, thrown) := send (Json (JObj [("received", JBool true)])) res s in
      match thrown with
      | Some e => handleError res1 e s1
      | None => (s1, res1)
      end
  | Fail error => handleError res error s
  end.

Section EntryPoint.

Variable rt : runtime.
Variable constructEvent : string -> option string -> option string -> verification.

(** The [switch]: the handler that is called, if any. *)
Definition dispatch (event : Event) : option (prog jsval) :=
  match classify (type event) as t return payload t -> option (prog jsval) with
  | invoice_finalized => fun o => Some (onInvoiceFinalized rt o)
  | invoice_paid => fun o => Some (onInvoicePaid rt o)
  | invoice_voided => fun o => Some (onInvoiceVoided rt o)
  | customer_created | customer_updated => fun o => Some (onCustomerUpdated rt o)
  | payout_paid => fun _ => None
  | unsupported => fun _ => None
  end (object event).

(** One run of [webhook] under [wrapHttpFunction]: the synchronous body,
    then the handler that was started and the callbacks attached to its
    promise, then the end of the response.  A handler that settles without
    having waited for a request has its callbacks run in the same turn of the
    event loop, before the flush; for one that waited, the collaborators
    decide which comes first. *)
Definition webhook (w : world) (req : Request) : state * Response :=
  let res := {| statusCode := 200; headersSent := false |} in
  match constructEvent (rawBody req) (stripe_signature req) (STRIPE_WEBHOOK_SECRET rt) with
  | SignatureVerificationError message =>
      let '(s1, res1, _) :=
        send (Json (JObj [("error", JBool true); ("message", JStr message)]))
             (status 400 res) initial in
      (s1, flush res1)
  | Verified event =>
      let '(s1, pending) :=
        match dispatch event with
        | Some handler => let '(s, p) := start handler initial in (s, Some p)
        | None => (initial, None)
        end in
      let '(s2, res2, _) := send (Text "Event type not supported") (status 400 res) s1 in
      let s3 := emit (Uncaught (Error ("Unhandled event type " +:+ type event))) s2 in
      match pending with
      | Some p =>
          let '(s4, r) := resume w p s3 in
          let res3 :=
            match p with
            | Settled _ => res2
            | Suspended _ _ => if flushed w (log s4) then flush res2 else res2
            end in
          let '(s5, res5) := react res3 r s4 in
          (s5, flush res5)
      | None => (s3, flush res2)
      end
  end.

End EntryPoint.

(** The responses a run wrote, in order. *)
Definition responses (l : list effect) : list (Z * body) :=
  omap (fun e => match e with Responded c b => Some (c, b) | _ => None end) l.

(** ** Notions used by the properties *)

(** [sends P p]: every request on every path of [p] satisfies [P]. *)
Fixpoint sends {A : Type} (P : call -> Prop) (p : prog A) : Prop :=
  match p with
  | Ret _ | Throw _ => True
  | Await c k => P c /\ forall r, sends P (k r)
  | Fork c _ k => P c /\ sends P k
  | Let _ k => forall x, sends P (k x)
  | Read _ k => forall v, sends P (k v)
  end.

(** The linkage id of a payment-platform object as the specification means
    it: the text stored under the key [sevdesk_id] of its metadata. *)
Definition linkage_id (metadata : option (gmap string (option string))) : option string :=
  match metadata with
  | Some m =>
      match m !! "sevdesk_id" with
      | Some (Some id) => Some id
      | _ => None
      end
  | None => None
  end.

(** What [metadata.sevdesk_id] reads once the guard [no_link] has answered
    false (the metadata is then not [null]). *)
Definition link (metadata : option (gmap string (option string))) : mval :=
  match metadata with
  | None => MNull
  | Some m => sevdesk_id m
  end.

(** The secret provider hands out [apiKey] for the configured secret. *)
Definition secret_is (w : world) (rt : runtime) (apiKey : string) : Prop :=
  forall history,
    reply w history
      (secretManager_accessSecretVersion (env_string (SEVDESK_API_KEY_SECRET rt)))
    = Ok apiKey.

Definition sevdesk (apiKey : string) : AxiosInstance :=
  {| baseURL := "https://my.sevdesk.de/api/v1/"; Authorization := apiKey |}.

Definition secret_request (rt : runtime) : call :=
  secretManager_accessSecretVersion (env_string (SEVDESK_API_KEY_SECRET rt)).

(** Sample inputs, for the properties that are shown on a concrete run. *)
Module Sample.

Definition rt : runtime :=
  {| STRIPE_WEBHOOK_SECRET := Some "whsec_1";
     SEVDESK_API_KEY_SECRET := Some "projects/p/secrets/sevdesk/versions/latest";
     SEVDESK_CHECK_ACCOUNT := Some "5001";
     today := "3.11.2026" |}.

Definition customer (metadata : option (gmap string (option string))) : Customer.t :=
  {| Customer.id := "cus_1";
     Customer.name := Some "ACME";
     Customer.tax_exempt := Some "none";
     Customer.tax_ids := None;
     Customer.metadata := metadata |}.

(** Metadata without the key, with the key, and with a [null] entry. *)
Definition no_key : gmap string (option string) := ∅.
Definition linked_to (id : string) : gmap string (option string) :=
  {[ "sevdesk_id" := Some id ]}.
Definition null_entry : gmap string (option string) :=
  {[ "sevdesk_id" := None ]}.

Definition line (rates : list string) : InvoiceLineItem.t :=
  {| InvoiceLineItem.quantity := Some 2;
     InvoiceLineItem.amount := 1000;
     InvoiceLineItem.description := Some "Widget";
     InvoiceLineItem.tax_amounts :=
       Some (map (fun r => {| TaxAmount.tax_rate := r |}) rates) |}.

Definition invoice (lines : list InvoiceLineItem.t)
    (metadata : option (gmap string (option string))) : Invoice.t :=
  {| Invoice.id := "in_1";
     Invoice.number := Some "A-1";
     Invoice.created := 1700000000;
     Invoice.currency := "eur";
     Invoice.customer_tax_exempt := Some "none";
     Invoice.amount_paid := 2380;
     Invoice.customer := "cus_1";
     Invoice.lines := lines;
     Invoice.metadata := metadata |}.

(** Collaborators that answer every request: the secret is ["key"], the
    customer on file is [c], SevDesk creates records with id ["77"], the
    Stripe update answers [updated], the tax rate is 19 percent, every
    callback is due as soon as the program suspends, and the response has
    been ended by the time a handler that waited for a request settles. *)
Definition world_with (c : Customer.t) (updated : jsval) : world :=
  {| reply := fun _ q =>
       match q as q0 return outcome (call_ret q0) with
       | secretManager_accessSecretVersion _ => Ok "key"
       | stripe_customers_retrieve _ => Ok c
       | stripe_customers_update _ _ => Ok updated
       | stripe_invoices_update _ _ => Ok (JObj [("id", JStr "in_1")])
       | stripe_taxRates_retrieve _ => Ok {| TaxRate.percentage := 19 |}
       | client_post _ _ _ => Ok (JObj [("id", JStr "77")])
       | client_put _ _ _ => Ok (JObj [("id", JStr "77")])
       end;
     due := fun _ => 8%nat;
     flushed := fun _ => true |}.

(** What the Stripe API answers to a customer update: the customer object,
    which has no [data] property. *)
Definition updated_customer : jsval :=
  JObj [("id", JStr "cus_1"); ("object", JStr "customer");
        ("metadata", JObj [("sevdesk_id", JStr "77")])].

Definition request : Request :=
  {| rawBody := "{}"; stripe_signature := Some "t=1,v1=abc" |}.

End Sample.

(** Answers of the collaborators, and the requests and states the
    properties speak about. *)

(** SevDesk answers the creation of the contact of [customer] with [body]. *)
Definition contact_created (w : world) (apiKey : string) (customer : Customer.t)
    (body : jsval) : Prop :=
  forall history,
    reply w history (client_post (sevdesk apiKey) "/Contact" (contact_data customer))
    = Ok body.

(** The write-back of a contact id into the customer's metadata. *)
Definition write_back (customer : Customer.t) (contactId : jsval) : call :=
  stripe_customers_update (Customer.id customer)
    (JObj [("metadata", JObj [("sevdesk_id", contactId)])]).

(** The number of tax rates a line item carries. *)
Definition tax_rates (line : InvoiceLineItem.t) : nat :=
  match InvoiceLineItem.tax_amounts line with
  | Some rates => List.length rates
  | None => 0%nat
  end.

(** The accounting line item as it is sent: its [taxRate] is [null]. *)
Definition posted_item (line : InvoiceLineItem.t) : jsval :=
  JObj [("quantity", of_number (InvoiceLineItem.quantity line));
        ("price", JInt (InvoiceLineItem.amount line));
        ("name", of_string (InvoiceLineItem.description line));
        ("text", JNull);
        ("discount", JNull);
        ("taxRate", JNull);
        ("priceGross", JNull);
        ("priceTax", JNull);
        ("mapAll", JBool true);
        ("objectName", JStr "InvoicePos")].

(** The tax-rate lookup a line item with one tax rate triggers. *)
Definition rate_lookups (line : InvoiceLineItem.t) : list call :=
  match InvoiceLineItem.tax_amounts line with
  | Some [first] => [stripe_taxRates_retrieve (TaxAmount.tax_rate first)]
  | _ => []
  end.

Definition multiple_rates : exn :=
  Error "Multiple tax rates per item are not supported.".

(** The part of [onInvoiceFinalized] before the line items: the client, the
    customer and the contact. *)
Definition prepare (rt : runtime) (invoice : Invoice.t) : prog (AxiosInstance * jsval) :=
  bind (sevDeskClient rt) (fun client =>
  bind (await (stripe_customers_retrieve (Invoice.customer invoice))) (fun customer =>
  bind (contact_of rt customer) (fun contactId =>
  Ret (client, contactId)))).

(** The part from the line items on. *)
Definition file (invoice : Invoice.t) (client : AxiosInstance) (contactId : jsval)
  : prog jsval :=
  bind (map_prog invoice_item (Invoice.lines invoice))
       (fun invoiceItems => save_invoice client invoice contactId invoiceItems).

(** What [prepare] can send: the secret lookup, the customer lookup, and on
    the create path the contact creation and its write-back. *)
Definition preparing (c : call) : Prop :=
  match c with
  | secretManager_accessSecretVersion _ => True
  | stripe_customers_retrieve _ => True
  | client_post _ url _ => url = "/Contact"
  | stripe_customers_update _ _ => True
  | _ => False
  end.

(** The invoice-creation call for [invoice], filed under [contactId]. *)
Definition save_request (client : AxiosInstance) (invoice : Invoice.t)
    (contactId : jsval) : call :=
  client_post client "/Invoice/Factory/saveInvoice"
    (invoice_data invoice contactId (map posted_item (Invoice.lines invoice))).

(** The write-back of the accounting invoice id. *)
Definition link_invoice (invoice : Invoice.t) (invoiceId : jsval) : call :=
  stripe_invoices_update (Invoice.id invoice)
    (JObj [("metadata", JObj [("sevdesk_id", invoiceId)])]).

(** The payment platform has [customer] on file for [invoice]. *)
Definition customer_is (w : world) (invoice : Invoice.t) (customer : Customer.t) : Prop :=
  forall history,
    reply w history (stripe_customers_retrieve (Invoice.customer invoice)) = Ok customer.

(** The payment platform answers the write-back with [updated]. *)
Definition written_back (w : world) (customer : Customer.t) (contactId updated : jsval)
  : Prop :=
  forall history, reply w history (write_back customer contactId) = Ok updated.

Definition retrieved (rt : runtime) (invoice : Invoice.t) : state :=
  emit (Requested (stripe_customers_retrieve (Invoice.customer invoice)))
    (emit (Requested (secret_request rt)) initial).

Definition contact_linked (rt : runtime) (invoice : Invoice.t) (apiKey : string)
    (customer : Customer.t) (newId : jsval) : state :=
  emit (Requested (write_back customer newId))
    (emit (Requested (client_post (sevdesk apiKey) "/Contact" (contact_data customer)))
       (emit (Requested (secret_request rt)) (retrieved rt invoice))).

(** Neither an invoice call nor an invoice write-back. *)
Definition before_filing (c : call) : Prop :=
  preparing c \/ exists rate, c = stripe_taxRates_retrieve rate.

(** ** Notions used by the further properties *)

(** The secret provider rejects the lookup of the configured secret. *)
Definition secret_fails (w : world) (rt : runtime) (e : exn) : Prop :=
  forall history, reply w history (secret_request rt) = Fail e.

(** The booking call of [onInvoicePaid] and the cancellation call of
    [onInvoiceVoided] for the accounting invoice [id]. *)
Definition booking_request (rt : runtime) (apiKey : string) (invoice : Invoice.t)
    (id : string) : call :=
  client_put (sevdesk apiKey) ("/Invoice/" +:+ id +:+ "/bookAmount")
    (JObj [("amount", JInt (Invoice.amount_paid invoice));
           ("date", JStr (today rt));
           ("type", JStr "N");
           ("checkAccount",
             JObj [("id", env_js (SEVDESK_CHECK_ACCOUNT rt));
                   ("objectName", JStr "CheckAccount")])]).

Definition cancel_request (apiKey : string) (id : string) : call :=
  client_post (sevdesk apiKey) ("/Invoice/" +:+ id +:+ "/cancelInvoice") JUndefined.

(** How a call through the axios client settles: the response object on
    fulfilment, the reason unchanged on rejection. *)
Definition as_response (r : outcome jsval) : outcome jsval :=
  match r with
  | Ok data => Ok (AxiosResponse data)
  | Fail e => Fail e
  end.

(** An invoice-creation call. *)
Definition is_save (c : call) : bool :=
  match c with
  | client_post _ url _ => String.eqb url "/Invoice/Factory/saveInvoice"
  | _ => false
  end.

(** A request to the payment platform. *)
Definition is_stripe (c : call) : bool :=
  match c with
  | stripe_customers_retrieve _ | stripe_customers_update _ _
  | stripe_invoices_update _ _ | stripe_taxRates_retrieve _ => true
  | _ => false
  end.

(** Where requests go: a secret lookup asks for the configured secret, an
    accounting request goes through a client bound to the SevDesk API. *)
Definition well_addressed (rt : runtime) (c : call) : Prop :=
  match c with
  | secretManager_accessSecretVersion name =>
      name = env_string (SEVDESK_API_KEY_SECRET rt)
  | client_post client _ _ | client_put client _ _ =>
      baseURL client = "https://my.sevdesk.de/api/v1/"
  | _ => True
  end.

(** [returns Q p]: every value [p] can resolve to satisfies [Q]. *)
Fixpoint returns {A : Type} (Q : A -> Prop) (p : prog A) : Prop :=
  match p with
  | Ret a => Q a
  | Throw _ => True
  | Await _ k => forall r, returns Q (k r)
  | Fork _ _ k => returns Q k
  | Let _ k => forall x, returns Q (k x)
  | Read _ k => forall v, returns Q (k v)
  end.

(** More sample collaborators: a secret provider that is down, and an
    accounting platform that rejects every call. *)
Module Outage.

Definition denied : exn := Reason (JObj [("message", JStr "permission denied")]).

Definition no_secret : world :=
  {| reply := fun _ q =>
       match q as q0 return outcome (call_ret q0) with
       | secretManager_accessSecretVersion _ => Fail denied
       | stripe_customers_retrieve _ => Ok (Sample.customer (Some Sample.no_key))
       | stripe_customers_update _ _ => Ok Sample.updated_customer
       | stripe_invoices_update _ _ => Ok (JObj [])
       | stripe_taxRates_retrieve _ => Ok {| TaxRate.percentage := 19 |}
       | client_post _ _ _ => Ok (JObj [("id", JStr "77")])
       | client_put _ _ _ => Ok (JObj [("id", JStr "77")])
       end;
     due := fun _ => 0%nat;
     flushed := fun _ => true |}.

Definition unprocessable : exn :=
  Reason (JObj [("message", JStr "Request failed with status code 422");
                ("response", JObj [("status", JInt 422)])]).

Definition no_accounting (c : Customer.t) : world :=
  {| reply := fun _ q =>
       match q as q0 return outcome (call_ret q0) with
       | secretManager_accessSecretVersion _ => Ok "key"
       | stripe_customers_retrieve _ => Ok c
       | stripe_customers_update _ _ => Ok Sample.updated_customer
       | stripe_invoices_update _ _ => Ok (JObj [])
       | stripe_taxRates_retrieve _ => Fail unprocessable
       | client_post _ _ _ => Fail unprocessable
       | client_put _ _ _ => Fail unprocessable
       end;
     due := fun _ => 1%nat;
     flushed := fun _ => false |}.

Definition not_found : exn :=
  Reason (JObj [("message", JStr "No such customer: 'cus_1'")]).

Definition no_customer : world :=
  {| reply := fun _ q =>
       match q as q0 return outcome (call_ret q0) with
       | secretManager_accessSecretVersion _ => Ok "key"
       | stripe_customers_retrieve _ => Fail not_found
       | stripe_customers_update _ _ => Ok Sample.updated_customer
       | stripe_invoices_update _ _ => Ok (JObj [])
       | stripe_taxRates_retrieve _ => Ok {| TaxRate.percentage := 19 |}
       | client_post _ _ _ => Ok (JObj [("id", JStr "77")])
       | client_put _ _ _ => Ok (JObj [("id", JStr "77")])
       end;
     due := fun _ => 0%nat;
     flushed := fun _ => true |}.

End Outage.

(** Upper-casing as the specification means it, on a code of ASCII
    characters: each of the 26 small letters becomes its capital, every other
    character stays. *)
Definition small_letters : list ascii :=
  list_ascii_of_string "abcdefghijklmnopqrstuvwxyz".

Definition capital_letters : list ascii :=
  list_ascii_of_string "ABCDEFGHIJKLMNOPQRSTUVWXYZ".

Fixpoint capital_in (small capitals : list ascii) (c : ascii) : ascii :=
  match small, capitals with
  | a :: small', b :: capitals' =>
      if Ascii.eqb c a then b else capital_in small' capitals' c
  | _, _ => c
  end.

Definition capital (c : ascii) : ascii := capital_in small_letters capital_letters c.

(** [u] is [s] upper-cased: the same number of characters, each the capital
    of the one at its place in [s]. *)
Definition upper_cased (s u : string) : Prop :=
  Forall2 (fun c d => d = capital c) (list_ascii_of_string s) (list_ascii_of_string u).

Definition ascii_only (s : string) : Prop :=
  Forall (fun c => (nat_of_ascii c < 128)%nat) (list_ascii_of_string s).

(** * Properties *)

(** Case analysis on how the next request settles. *)
Tactic Notation "case_reply" constr(w) :=
  match goal with |- context [reply w ?h ?c] => destruct (reply w h c) end.
Tactic Notation "case_reply" constr(w) "as" simple_intropattern(pat) :=
  match goal with |- context [reply w ?h ?c] => destruct (reply w h c) as pat end.

(** ** The interpreter *)

Lemma run_bind {A B : Type} (w : world) (p : prog A) (f : A -> prog B) (s : state) :
  run w (bind p f) s =
  match run w p s with
  | (s', Ok a) => run w (f a) s'
  | (s', Fail e) => (s', Fail e)
  end.
Proof.
  revert s. induction p as [a|e|c k IH|c cb k IH|v k IH|x k IH]; intros s; simpl;
    try reflexivity; auto.
Qed.

Lemma run_try_rethrow {A : Type} (w : world) (p : prog A) (s : state) :
  run w (try_catch p (fun err => Throw err)) s = run w p s.
Proof.
  revert s. induction p as [a|e|c k IH|c cb k IH|v k IH|x k IH]; intros s; simpl; auto.
Qed.

(** [start] followed by [resume] is [run]: splitting a call at its first
    suspension loses nothing. *)
Lemma start_resume {A : Type} (w : world) (p : prog A) (s : state) :
  (let '(s', q) := start p s in resume w q s') = run w p s.
Proof.
  revert s. induction p as [a|e|c k IH|c cb k IH|v k IH|x k IH]; intros s; simpl; auto.
Qed.

Lemma store_read_fresh (h : store) (v : jsval) :
  store_read (List.length h) (h ++ [v]) = v.
Proof.
  unfold store_read. induction h as [|x h IH]; simpl; auto.
Qed.

Lemma run_job_requests (w : world) (j : job) (s : state) :
  requests (log (run_job w j s)) = requests (log s).
Proof.
  unfold run_job. destruct (reply w (log s) (job_call j)); simpl; auto.
  unfold requests. rewrite omap_app. simpl. apply app_nil_r.
Qed.

Lemma run_jobs_requests (w : world) (js : list job) (s : state) :
  requests (log (fold_left (fun s' j => run_job w j s') js s)) = requests (log s).
Proof.
  revert s. induction js as [|j js IH]; intros s; simpl; auto.
  rewrite IH. apply run_job_requests.
Qed.

(** Callbacks that become due send nothing. *)
Lemma run_due_requests (w : world) (s : state) :
  requests (log (run_due w s)) = requests (log s).
Proof. unfold run_due. rewrite run_jobs_requests. reflexivity. Qed.

Lemma run_due_idle (w : world) (s : state) :
  jobs s = [] -> run_due w s = s.
Proof.
  destruct s as [l h js]. simpl. intros ->. unfold run_due. simpl.
  rewrite take_nil, drop_nil. reflexivity.
Qed.

Lemma requests_emit (c : call) (s : state) :
  requests (log (emit (Requested c) s)) = requests (log s) ++ [c].
Proof. unfold requests. simpl. rewrite omap_app. reflexivity. Qed.

(** An [await] when no callback is pending. *)
Lemma run_await_idle {A : Type} (w : world) (c : call)
    (k : outcome (call_ret c) -> prog A) (s : state) :
  jobs s = [] ->
  run w (Await c k) s =
  run w (k (reply w (log s ++ [Requested c]) c)) (emit (Requested c) s).
Proof.
  intros H. simpl. rewrite run_due_idle by exact H. reflexivity.
Qed.

(** ** What a program can send *)

Lemma sends_bind {A B : Type} (P : call -> Prop) (p : prog A) (f : A -> prog B) :
  sends P p -> (forall a, sends P (f a)) -> sends P (bind p f).
Proof.
  intros Hp Hf. induction p as [a|e|c k IH|c cb k IH|v k IH|x k IH]; simpl in *;
    auto; destruct Hp; auto.
Qed.

Lemma sends_try_catch {A : Type} (P : call -> Prop) (p : prog A) (h : exn -> prog A) :
  sends P p -> (forall e, sends P (h e)) -> sends P (try_catch p h).
Proof.
  intros Hp Hh. induction p as [a|e|c k IH|c cb k IH|v k IH|x k IH]; simpl in *;
    auto; destruct Hp; auto.
Qed.

Lemma sends_await (P : call -> Prop) (c : call) : P c -> sends P (await c).
Proof. intros H. split; [exact H|]. intros [v|e]; exact I. Qed.

Lemma sends_lift {A : Type} (P : call -> Prop) (r : outcome A) : sends P (lift r).
Proof. destruct r; exact I. Qed.

Lemma sends_map_prog {A B : Type} (P : call -> Prop) (f : A -> prog B) (l : list A) :
  (forall a, sends P (f a)) -> sends P (map_prog f l).
Proof.
  intros Hf. induction l as [|a l IH]; simpl; [exact I|].
  apply sends_bind; [apply Hf|]. intros b.
  apply sends_bind; [exact IH|]. intros bs. exact I.
Qed.

(** Whatever the collaborators answer, a run only adds requests that the
    program can send. *)
Lemma sends_run {A : Type} (P : call -> Prop) (w : world) (p : prog A) (s : state) :
  sends P p ->
  Forall P (requests (log s)) ->
  Forall P (requests (log (run w p s).1)).
Proof.
  revert s. induction p as [a|e|c k IH|c cb k IH|v k IH|x k IH]; intros s Hp Hs;
    simpl in *; auto.
  - destruct Hp as [Hc Hk]. apply IH; [apply Hk|].
    rewrite run_due_requests, requests_emit. apply Forall_app; auto.
  - destruct Hp as [Hc Hk]. apply IH; [exact Hk|]. simpl.
    change (log s ++ [Requested c]) with (log (emit (Requested c) s)).
    rewrite requests_emit. apply Forall_app; auto.
Qed.

Corollary sends_initial {A : Type} (P : call -> Prop) (w : world) (p : prog A) :
  sends P p -> Forall P (requests (log (run w p initial).1)).
Proof. intros H. apply sends_run; [exact H | constructor]. Qed.

Lemma sends_sevDeskClient (rt : runtime) (P : call -> Prop) :
  (forall name, P (secretManager_accessSecretVersion name)) ->
  sends P (sevDeskClient rt).
Proof.
  intros H. unfold sevDeskClient, accessSecretVersion, mbind, prog_bind.
  repeat (apply sends_bind; [|intros; try exact I]). apply sends_await, H.
Qed.

(** ** Linkage *)

Lemma linked_link metadata id :
  linkage_id metadata = Some id ->
  no_link metadata = false /\ link metadata = MStr id.
Proof.
  unfold linkage_id, no_link, link, sevdesk_id.
  destruct metadata as [m|]; [|discriminate].
  destruct (m !! "sevdesk_id") as [[s|]|]; try discriminate.
  intros [= ->]. auto.
Qed.

Lemma guarded_link metadata :
  no_link metadata = false -> metadata_sevdesk_id metadata = Ok (link metadata).
Proof. destruct metadata; [reflexivity | discriminate]. Qed.

(** The three ways an object can lack a linkage id; the guards of the
    program recognise the first two. *)
Lemma unlinked_cases metadata :
  linkage_id metadata = None ->
  metadata = None
  \/ (exists m, metadata = Some m /\ sevdesk_id m = MNull)
  \/ (exists m, metadata = Some m /\ sevdesk_id m = MUndefined).
Proof.
  unfold linkage_id, sevdesk_id. destruct metadata as [m|]; [|auto].
  destruct (m !! "sevdesk_id") as [[s|]|] eqn:E; [discriminate| |]; intros _;
    right; [left|right]; exists m; rewrite E; auto.
Qed.

Lemma run_sevDeskClient {B : Type} (w : world) (rt : runtime) (apiKey : string)
    (f : AxiosInstance -> prog B) (s : state) :
  secret_is w rt apiKey ->
  jobs s = [] ->
  run w (bind (sevDeskClient rt) f) s =
  run w (f (sevdesk apiKey)) (emit (Requested (secret_request rt)) s).
Proof.
  intros Hkey Hjobs. unfold sevDeskClient, accessSecretVersion, await.
  cbn [mbind prog_bind bind]. rewrite run_await_idle by exact Hjobs.
  rewrite Hkey. reflexivity.
Qed.

(** ** Invoice paid *)

(** C8.  For an invoice with a linkage id, and a secret provider that hands
    out the API key, the Invoice-Paid handler sends exactly one accounting
    request: the booking call on the linked invoice, whose amount is the
    invoice's [amount_paid], whose booking type is the fixed code ['N'] and
    whose check account is the configured [SEVDESK_CHECK_ACCOUNT]. *)
Theorem paid_books_amount (rt : runtime) (w : world) (invoice : Invoice.t)
    (id apiKey : string) :
  linkage_id (Invoice.metadata invoice) = Some id ->
  secret_is w rt apiKey ->
  exists data checkAccount,
    requests (log (run w (onInvoicePaid rt invoice) initial).1) =
      [secret_request rt;
       client_put (sevdesk apiKey) ("/Invoice/" +:+ id +:+ "/bookAmount") data]
    /\ jget data "amount" = Ok (JInt (Invoice.amount_paid invoice))
    /\ jget data "type" = Ok (JStr "N")
    /\ jget data "checkAccount" = Ok checkAccount
    /\ jget checkAccount "id" = Ok (env_js (SEVDESK_CHECK_ACCOUNT rt)).
Proof.
  intros Hid Hkey. destruct (linked_link _ _ Hid) as [Hno Hlink].
  unfold onInvoicePaid. rewrite Hno, (guarded_link _ Hno), Hlink.
  unfold mbind, prog_bind. cbn [lift bind]. rewrite run_sevDeskClient with (apiKey := apiKey) by auto.
  unfold put, await, mbind, prog_bind. cbn [bind].
  rewrite run_await_idle by reflexivity.
  eexists _, _. split.
  - case_reply w;
      reflexivity.
  - repeat split; reflexivity.
Qed.

Lemma paid_books_amount_witness :
  exists data checkAccount,
    requests (log (run (Sample.world_with (Sample.customer None) JNull)
                     (onInvoicePaid Sample.rt
                        (Sample.invoice [] (Some (Sample.linked_to "42"))))
                     initial).1) =
      [secret_request Sample.rt;
       client_put (sevdesk "key") ("/Invoice/" +:+ "42" +:+ "/bookAmount") data]
    /\ jget data "amount" = Ok (JInt 2380)
    /\ jget data "type" = Ok (JStr "N")
    /\ jget data "checkAccount" = Ok checkAccount
    /\ jget checkAccount "id" = Ok (JStr "5001").
Proof.
  apply (paid_books_amount Sample.rt
           (Sample.world_with (Sample.customer None) JNull)
           (Sample.invoice [] (Some (Sample.linked_to "42"))) "42" "key").
  - vm_compute. reflexivity.
  - intros history. reflexivity.
Defined.

(** ** Invoices without a linkage *)

(** When the guard of the paid and voided handlers fires (the metadata, or
    its [sevdesk_id] entry, is [null]), the handler rejects at once and
    nothing is sent. *)
Lemma guarded_invoice_rejected (rt : runtime) (w : world) (invoice : Invoice.t) (s : state) :
  no_link (Invoice.metadata invoice) = true ->
  run w (onInvoicePaid rt invoice) s = (s, Fail (Error "No SevDesk link found."))
  /\ run w (onInvoiceVoided rt invoice) s = (s, Fail (Error "No SevDesk link found.")).
Proof.
  intros H. unfold onInvoicePaid, onInvoiceVoided. rewrite H. split; reflexivity.
Qed.

(** C3, at an invoice whose metadata is the empty object: it has no linkage
    id, yet [null === undefined] is false, so neither guard fires; both
    handlers go on and send an accounting request for the invoice id
    ["undefined"], and both resolve. *)
Theorem unlinked_invoice_passes_guard :
  let invoice := Sample.invoice [] (Some Sample.no_key) in
  let w := Sample.world_with (Sample.customer None) JNull in
  linkage_id (Invoice.metadata invoice) = None
  /\ (exists data,
        requests (log (run w (onInvoicePaid Sample.rt invoice) initial).1) =
          [secret_request Sample.rt;
           client_put (sevdesk "key") "/Invoice/undefined/bookAmount" data]
        /\ (run w (onInvoicePaid Sample.rt invoice) initial).2 =
           Ok (AxiosResponse (JObj [("id", JStr "77")])))
  /\ requests (log (run w (onInvoiceVoided Sample.rt invoice) initial).1) =
       [secret_request Sample.rt;
        client_post (sevdesk "key") "/Invoice/undefined/cancelInvoice" JUndefined]
  /\ (run w (onInvoiceVoided Sample.rt invoice) initial).2 =
     Ok (AxiosResponse (JObj [("id", JStr "77")])).
Proof.
  cbv zeta. split; [vm_compute; reflexivity|]. split.
  - eexists. split; vm_compute; reflexivity.
  - split; vm_compute; reflexivity.
Qed.

(** X21.  The missing key in general: with the API key at hand, an invoice
    whose metadata has no [sevdesk_id] key is booked, or cancelled, under the
    invoice id ["undefined"]. *)
Lemma keyless_invoice_sent (rt : runtime) (w : world) (invoice : Invoice.t)
    (apiKey : string) (m : gmap string (option string)) :
  secret_is w rt apiKey ->
  Invoice.metadata invoice = Some m ->
  m !! "sevdesk_id" = None ->
  (exists data,
     requests (log (run w (onInvoicePaid rt invoice) initial).1) =
       [secret_request rt;
        client_put (sevdesk apiKey) "/Invoice/undefined/bookAmount" data])
  /\ requests (log (run w (onInvoiceVoided rt invoice) initial).1) =
       [secret_request rt;
        client_post (sevdesk apiKey) "/Invoice/undefined/cancelInvoice" JUndefined].
Proof.
  intros Hkey Hm Hnone.
  assert (Hno : no_link (Invoice.metadata invoice) = false).
  { rewrite Hm. unfold no_link, sevdesk_id. rewrite Hnone. reflexivity. }
  assert (Hlink : link (Invoice.metadata invoice) = MUndefined).
  { rewrite Hm. unfold link, sevdesk_id. rewrite Hnone. reflexivity. }
  unfold onInvoicePaid, onInvoiceVoided. rewrite Hno, (guarded_link _ Hno), Hlink.
  unfold mbind, prog_bind. cbn [lift bind]. rewrite !run_sevDeskClient with (apiKey := apiKey) by auto.
  unfold put, post, await, mbind, prog_bind. cbn [bind mval_string].
  rewrite !run_await_idle by reflexivity. split.
  - eexists.
    case_reply w;
      reflexivity.
  - case_reply w;
      reflexivity.
Qed.

(** In every run, whatever the collaborators answer, the only accounting
    request of the paid handler is the booking call. *)
Lemma paid_sends_only_booking (rt : runtime) (w : world) (invoice : Invoice.t) :
  Forall (fun c =>
            is_accounting c = true ->
            exists client url data,
              c = client_put client url data
              /\ jget data "amount" = Ok (JInt (Invoice.amount_paid invoice))
              /\ jget data "type" = Ok (JStr "N"))
         (requests (log (run w (onInvoicePaid rt invoice) initial).1)).
Proof.
  apply sends_initial. unfold onInvoicePaid.
  destruct (no_link (Invoice.metadata invoice)); [exact I|].
  unfold mbind, prog_bind. apply sends_bind; [apply sends_lift|]. intros invoiceId.
  apply sends_bind.
  - apply sends_sevDeskClient. intros name [=].
  - intros client. unfold put, mbind, prog_bind.
    apply sends_bind; [|intros; exact I]. apply sends_await.
    intros _. eexists _, _, _. repeat split; reflexivity.
Qed.

(** ** The entry point *)









(** C9.  A request that fails signature verification is answered with
    HTTP 400 and [{error: true, message}], and that response is all that
    happens: no handler runs, no request is sent, no metadata is written. *)
Theorem unverified_request_rejected (rt : runtime)
    (constructEvent : string -> option string -> option string -> verification)
    (w : world) (req : Request) (message : string) :
  constructEvent (rawBody req) (stripe_signature req) (STRIPE_WEBHOOK_SECRET rt)
    = SignatureVerificationError message ->
  webhook rt constructEvent w req =
    ({| log := [Responded 400
                  (Json (JObj [("error", JBool true); ("message", JStr message)]))];
        vars := []; jobs := [] |},
     {| statusCode := 400; headersSent := true |})
  /\ requests (log (webhook rt constructEvent w req).1) = []
  /\ filter (fun c => is_writeback c = true)
       (requests (log (webhook rt constructEvent w req).1)) = [].
Proof.
  intros H. unfold webhook. rewrite H. repeat split; reflexivity.
Qed.

Lemma unverified_request_rejected_witness :
  webhook Sample.rt (fun _ _ _ => SignatureVerificationError "No signatures found")
    (Sample.world_with (Sample.customer None) JNull) Sample.request =
    ({| log := [Responded 400
                  (Json (JObj [("error", JBool true);
                               ("message", JStr "No signatures found")]))];
        vars := []; jobs := [] |},
     {| statusCode := 400; headersSent := true |}).
Proof.
  apply (unverified_request_rejected Sample.rt
           (fun _ _ _ => SignatureVerificationError "No signatures found")
           (Sample.world_with (Sample.customer None) JNull) Sample.request
           "No signatures found").
  reflexivity.
Defined.

(** The [switch]: which handler each event type starts. *)
Lemma dispatch_cases (rt : runtime) (invoice : Invoice.t) (customer : Customer.t)
    (o : jsval) :
  dispatch rt {| type := "invoice.finalized"; object := invoice |}
    = Some (onInvoiceFinalized rt invoice)
  /\ dispatch rt {| type := "invoice.paid"; object := invoice |}
     = Some (onInvoicePaid rt invoice)
  /\ dispatch rt {| type := "invoice.voided"; object := invoice |}
     = Some (onInvoiceVoided rt invoice)
  /\ dispatch rt {| type := "customer.created"; object := customer |}
     = Some (onCustomerUpdated rt customer)
  /\ dispatch rt {| type := "customer.updated"; object := customer |}
     = Some (onCustomerUpdated rt customer)
  /\ dispatch rt {| type := "payout.paid"; object := o |} = None.
Proof. repeat split; reflexivity. Qed.




(** C1, at a verified [invoice.paid] event for a linked invoice.  The
    handler is started and later resolves, but the entry point does not wait
    for it: the statement after the [switch] answers HTTP 400 ['Event type
    not supported'] and the entry point throws, both before the booking call
    is even sent.  When the handler resolves, [res.json({received: true})]
    finds the response already written and, in this run, ended; no HTTP 200
    is ever sent. *)
Theorem handled_event_answered_unsupported :
  let event := {| type := "invoice.paid";
                  object := Sample.invoice [] (Some (Sample.linked_to "42")) |} in
  let w := Sample.world_with (Sample.customer None) JNull in
  let served := webhook Sample.rt (fun _ _ _ => Verified event) w Sample.request in
  dispatch Sample.rt event =
    Some (onInvoicePaid Sample.rt (Sample.invoice [] (Some (Sample.linked_to "42"))))
  /\ (run w (onInvoicePaid Sample.rt (Sample.invoice [] (Some (Sample.linked_to "42"))))
        initial).2 = Ok (AxiosResponse (JObj [("id", JStr "77")]))
  /\ log served.1 =
       [Requested (secret_request Sample.rt);
        Responded 400 (Text "Event type not supported");
        Uncaught (Error "Unhandled event type invoice.paid");
        Requested
          (client_put (sevdesk "key") "/Invoice/42/bookAmount"
             (JObj [("amount", JInt 2380);
                    ("date", JStr "3.11.2026");
                    ("type", JStr "N");
                    ("checkAccount",
                      JObj [("id", JStr "5001");
                            ("objectName", JStr "CheckAccount")])]));
        Logged JUndefined;
        Uncaught (Error "Cannot set headers after they are sent to the client")]
  /\ responses (log served.1) = [(400, Text "Event type not supported")].
Proof.
  cbv zeta. repeat split; vm_compute; reflexivity.
Qed.

(** ** Contacts *)

Lemma data_id_response (body : jsval) : data_id (AxiosResponse body) = jget body "id".
Proof. reflexivity. Qed.

(** The create path of [createOrUpdateContact]: three requests, and the
    settlement of the last one is the settlement of the whole call. *)
Lemma run_create_contact (rt : runtime) (w : world) (customer : Customer.t)
    (apiKey : string) (body newId : jsval) (s : state) :
  secret_is w rt apiKey ->
  contact_created w apiKey customer body ->
  jget body "id" = Ok newId ->
  jobs s = [] ->
  let s' := emit (Requested (write_back customer newId))
              (emit (Requested (client_post (sevdesk apiKey) "/Contact"
                                  (contact_data customer)))
                 (emit (Requested (secret_request rt)) s)) in
  run w (createOrUpdateContact rt customer MUndefined) s =
    (s', reply w (log s') (write_back customer newId)).
Proof.
  intros Hkey Hpost Hid Hjobs s'. unfold createOrUpdateContact.
  unfold mbind, prog_bind. rewrite run_sevDeskClient with (apiKey := apiKey) by auto.
  unfold post, await, mbind, prog_bind. cbn [bind].
  rewrite run_await_idle by exact Hjobs. rewrite Hpost. cbn [bind lift].
  rewrite data_id_response, Hid. cbn [bind lift].
  rewrite run_await_idle by exact Hjobs.
  fold (write_back customer newId).
  change (log (emit ?e ?s0) ++ [?x]) with (log (emit x (emit e s0))).
  fold s'. destruct (reply w (log s') (write_back customer newId)); reflexivity.
Qed.

(** A customer without a linkage id always takes the create path, also when
    the key is simply missing: [createOrUpdateContact] tests its argument
    with [typeof customerId === "undefined"]. *)
Lemma unlinked_customer_creates (rt : runtime) (customer : Customer.t) :
  linkage_id (Customer.metadata customer) = None ->
  onCustomerUpdated rt customer = createOrUpdateContact rt customer MUndefined.
Proof.
  intros H. unfold onCustomerUpdated.
  destruct (unlinked_cases _ H) as [E|[[m [E Em]]|[m [E Em]]]];
    rewrite E; unfold no_link, metadata_sevdesk_id; try rewrite Em; reflexivity.
Qed.

(** C5.  With the API key at hand: for a customer without a linkage id, once
    SevDesk answers the creation with a body whose [id] can be read, the
    Customer-Updated handler sends exactly one contact-creation call followed
    by exactly one write-back call that stores that id under [sevdesk_id];
    for a customer with a linkage id it sends one update of the existing
    contact and no write-back. *)
Theorem customer_update_links_or_updates (rt : runtime) (w : world)
    (customer : Customer.t) (apiKey : string) :
  secret_is w rt apiKey ->
  (linkage_id (Customer.metadata customer) = None ->
   forall body newId,
     contact_created w apiKey customer body ->
     jget body "id" = Ok newId ->
     requests (log (run w (onCustomerUpdated rt customer) initial).1) =
       [secret_request rt;
        client_post (sevdesk apiKey) "/Contact" (contact_data customer);
        stripe_customers_update (Customer.id customer)
          (JObj [("metadata", JObj [("sevdesk_id", newId)])])])
  /\ (forall id,
        linkage_id (Customer.metadata customer) = Some id ->
        requests (log (run w (onCustomerUpdated rt customer) initial).1) =
          [secret_request rt;
           client_put (sevdesk apiKey) ("/Contact/" +:+ id) (contact_data customer)]).
Proof.
  intros Hkey. split.
  - intros Hnone body newId Hpost Hid.
    rewrite unlinked_customer_creates by exact Hnone.
    rewrite (run_create_contact rt w customer apiKey body newId initial)
      by (auto || reflexivity).
    reflexivity.
  - intros id Hsome. destruct (linked_link _ _ Hsome) as [Hno Hlink].
    unfold onCustomerUpdated. rewrite Hno, (guarded_link _ Hno), Hlink.
    unfold createOrUpdateContact, mbind, prog_bind. cbn [lift bind].
    rewrite run_sevDeskClient with (apiKey := apiKey) by auto.
    unfold put, await, mbind, prog_bind. cbn [bind mval_string].
    rewrite run_await_idle by reflexivity.
    case_reply w;
      reflexivity.
Qed.

Lemma customer_update_links_or_updates_witness :
  requests (log (run (Sample.world_with (Sample.customer None) Sample.updated_customer)
                   (onCustomerUpdated Sample.rt (Sample.customer (Some Sample.no_key)))
                   initial).1) =
    [secret_request Sample.rt;
     client_post (sevdesk "key") "/Contact"
       (contact_data (Sample.customer (Some Sample.no_key)));
     stripe_customers_update "cus_1"
       (JObj [("metadata", JObj [("sevdesk_id", JStr "77")])])]
  /\ requests (log (run (Sample.world_with (Sample.customer None) Sample.updated_customer)
                      (onCustomerUpdated Sample.rt
                         (Sample.customer (Some (Sample.linked_to "42"))))
                      initial).1) =
       [secret_request Sample.rt;
        client_put (sevdesk "key") "/Contact/42"
          (contact_data (Sample.customer (Some (Sample.linked_to "42"))))].
Proof.
  split.
  - refine (proj1 (customer_update_links_or_updates Sample.rt
                     (Sample.world_with (Sample.customer None) Sample.updated_customer)
                     (Sample.customer (Some Sample.no_key)) "key" _)
              _ (JObj [("id", JStr "77")]) (JStr "77") _ _).
    + intros history. reflexivity.
    + vm_compute. reflexivity.
    + intros history. reflexivity.
    + reflexivity.
  - refine (proj2 (customer_update_links_or_updates Sample.rt
                     (Sample.world_with (Sample.customer None) Sample.updated_customer)
                     (Sample.customer (Some (Sample.linked_to "42"))) "key" _)
              "42" _).
    + intros history. reflexivity.
    + vm_compute. reflexivity.
Defined.

(** ** Line items *)

(** The [map] callback reads [taxRate] in the same synchronous run that
    declared it: the lookup has been sent, its callback has not run, and the
    item is built with [taxRate: null]. *)
Lemma run_invoice_item (w : world) (line : InvoiceLineItem.t) (s : state) :
  (tax_rates line <= 1)%nat ->
  exists s',
    run w (invoice_item line) s = (s', Ok (posted_item line))
    /\ requests (log s') = requests (log s) ++ rate_lookups line.
Proof.
  intros Hn. unfold invoice_item, tax_rates, rate_lookups, posted_item in *.
  unfold mbind, prog_bind. cbn [run].
  destruct (InvoiceLineItem.tax_amounts line) as [[|first [|second others]]|];
    cbn [List.length Nat.ltb Nat.leb bind run vars emit] in *.
  - rewrite store_read_fresh. eexists. split; [reflexivity|].
    cbn [log]. symmetry. apply app_nil_r.
  - rewrite store_read_fresh. eexists. split; [reflexivity|].
    cbn [log emit]. unfold requests. rewrite omap_app. reflexivity.
  - lia.
  - rewrite store_read_fresh. eexists. split; [reflexivity|].
    cbn [log]. symmetry. apply app_nil_r.
Qed.

(** A line item with two or more tax rates makes the callback throw before
    it sends anything. *)
Lemma run_invoice_item_multi (w : world) (line : InvoiceLineItem.t) (s : state) :
  (2 <= tax_rates line)%nat ->
  exists s',
    run w (invoice_item line) s = (s', Fail multiple_rates)
    /\ log s' = log s.
Proof.
  intros Hn. unfold invoice_item, tax_rates in *. unfold mbind, prog_bind. cbn [run].
  destruct (InvoiceLineItem.tax_amounts line) as [[|first [|second others]]|];
    cbn [List.length] in Hn; try lia.
  cbn. eexists. split; reflexivity.
Qed.

Lemma run_invoice_items (w : world) (lines : list InvoiceLineItem.t) (s : state) :
  Forall (fun line => (tax_rates line <= 1)%nat) lines ->
  exists s',
    run w (map_prog invoice_item lines) s = (s', Ok (map posted_item lines))
    /\ requests (log s') = requests (log s) ++ flat_map rate_lookups lines.
Proof.
  intros H. revert s. induction H as [|line lines Hline _ IH]; intros s.
  - exists s. split; [reflexivity|]. symmetry. apply app_nil_r.
  - cbn [map_prog]. unfold mbind, prog_bind. rewrite run_bind.
    destruct (run_invoice_item w line s Hline) as [s1 [-> Hs1]].
    rewrite run_bind. destruct (IH s1) as [s2 [-> Hs2]].
    exists s2. split; [reflexivity|].
    rewrite Hs2, Hs1. cbn [flat_map]. symmetry. apply app_assoc.
Qed.

(** With a line item of two or more tax rates somewhere, the [map] throws;
    up to there it has only looked up tax rates. *)
Lemma run_invoice_items_multi (w : world) (lines : list InvoiceLineItem.t) (s : state) :
  Exists (fun line => (2 <= tax_rates line)%nat) lines ->
  exists s' lookups,
    run w (map_prog invoice_item lines) s = (s', Fail multiple_rates)
    /\ requests (log s') = requests (log s) ++ lookups
    /\ Forall (fun c => exists id, c = stripe_taxRates_retrieve id) lookups.
Proof.
  revert s. induction lines as [|line lines IH]; intros s H.
  - inversion H.
  - cbn [map_prog]. unfold mbind, prog_bind. rewrite run_bind.
    destruct (le_lt_dec 2 (tax_rates line)) as [Hmulti|Hone].
    + destruct (run_invoice_item_multi w line s Hmulti) as [s1 [-> Hs1]].
      exists s1, []. rewrite Hs1. split; [reflexivity|].
      split; [symmetry; apply app_nil_r | constructor].
    + assert (Hle : (tax_rates line <= 1)%nat) by lia.
      destruct (run_invoice_item w line s Hle) as [s1 [-> Hs1]].
      rewrite run_bind.
      assert (Hrest : Exists (fun line => (2 <= tax_rates line)%nat) lines).
      { inversion H; subst; [lia | assumption]. }
      destruct (IH s1 Hrest) as [s2 [lookups [-> [Hs2 Hall]]]].
      exists s2, (rate_lookups line ++ lookups). split; [reflexivity|]. split.
      * rewrite Hs2, Hs1. symmetry. apply app_assoc.
      * apply Forall_app. split; [|exact Hall].
        unfold rate_lookups.
        destruct (InvoiceLineItem.tax_amounts line) as [[|first [|? ?]]|];
          repeat constructor. eexists. reflexivity.
Qed.

(** ** Invoice finalized *)

Lemma run_finalized (rt : runtime) (w : world) (invoice : Invoice.t) (s : state) :
  run w (onInvoiceFinalized rt invoice) s =
  match run w (prepare rt invoice) s with
  | (s1, Ok (client, contactId)) => run w (file invoice client contactId) s1
  | (s1, Fail e) => (s1, Fail e)
  end.
Proof.
  unfold onInvoiceFinalized, prepare, file, mbind, prog_bind.
  rewrite !run_bind. destruct (run w (sevDeskClient rt) s) as [s1 [client|e]]; [|reflexivity].
  rewrite !run_bind.
  change (call_ret (stripe_customers_retrieve (Invoice.customer invoice)))
    with Customer.t.
  match goal with |- context [@run ?T w (await ?c) s1] =>
    destruct (@run T w (await c) s1) as [s2 [customer|e]]; [|reflexivity] end.
  rewrite !run_bind.
  destruct (run w (contact_of rt customer) s2) as [s3 [contactId|e]]; reflexivity.
Qed.

Lemma sends_prepare (rt : runtime) (invoice : Invoice.t) :
  sends preparing (prepare rt invoice).
Proof.
  unfold prepare. apply sends_bind; [apply sends_sevDeskClient; intros; exact I|].
  intros client. apply sends_bind; [apply sends_await; exact I|].
  intros customer. apply sends_bind; [|intros; exact I].
  unfold contact_of. unfold mbind, prog_bind.
  destruct (negb _); [apply sends_bind; [apply sends_lift | intros; exact I]|].
  apply sends_bind; [|intros; apply sends_lift].
  unfold createOrUpdateContact, mbind, prog_bind.
  apply sends_bind; [apply sends_sevDeskClient; intros; exact I|].
  intros client'. unfold post, mbind, prog_bind.
  apply sends_bind; [apply sends_bind; [apply sends_await; reflexivity|intros; exact I]|].
  intros response. apply sends_bind; [apply sends_lift|].
  intros id. apply sends_await. exact I.
Qed.

Lemma requests_await (w : world) (c : call) (s : state) :
  requests (log (run_due w (emit (Requested c) s))) = requests (log s) ++ [c].
Proof. rewrite run_due_requests. apply requests_emit. Qed.

(** The [try] block sends the creation call and, when SevDesk answers with a
    body whose [id] can be read, the write-back; it resolves only after
    both. *)
Lemma run_save_invoice (w : world) (client : AxiosInstance) (invoice : Invoice.t)
    (contactId : jsval) (items : list jsval) (s : state) :
  let create := client_post client "/Invoice/Factory/saveInvoice"
                  (invoice_data invoice contactId items) in
  let r := run w (save_invoice client invoice contactId items) s in
  requests (log r.1) = requests (log s) ++ [create]
  \/ exists invoiceId,
       requests (log r.1) = requests (log s) ++ [create; link_invoice invoice invoiceId].
Proof.
  cbv zeta. unfold save_invoice. rewrite run_try_rethrow.
  unfold post, await, mbind, prog_bind. cbn [bind run].
  case_reply w as [body|e].
  - cbn [bind]. rewrite data_id_response.
    destruct (jget body "id") as [invoiceId|e]; cbn [lift bind run].
    + right. exists invoiceId.
      case_reply w;
        cbn [bind run fst]; rewrite !requests_await, <- app_assoc; reflexivity.
    + left. cbn [fst]. apply requests_await.
  - left. cbn [bind run fst]. apply requests_await.
Qed.

(** From the line items on, whatever the collaborators answer and whenever
    the tax-rate callbacks run: tax-rate lookups, then at most the creation
    call, with every line item as [posted_item] has it, then at most the
    write-back of the invoice id. *)
Lemma run_file (w : world) (invoice : Invoice.t) (client : AxiosInstance)
    (contactId : jsval) (s : state) :
  let r := run w (file invoice client contactId) s in
  exists lookups tail,
    requests (log r.1) = requests (log s) ++ lookups ++ tail
    /\ Forall (fun c => exists id, c = stripe_taxRates_retrieve id) lookups
    /\ (Exists (fun line => (2 <= tax_rates line)%nat) (Invoice.lines invoice) ->
        tail = [] /\ r.2 = Fail multiple_rates)
    /\ (Forall (fun line => (tax_rates line <= 1)%nat) (Invoice.lines invoice) ->
        In (save_request client invoice contactId) tail)
    /\ (tail = []
        \/ tail = [save_request client invoice contactId]
        \/ exists invoiceId,
             tail = [save_request client invoice contactId;
                     link_invoice invoice invoiceId]).
Proof.
  cbv zeta. unfold file. rewrite run_bind.
  destruct (decide (Exists (fun line => (2 <= tax_rates line)%nat)
                      (Invoice.lines invoice)))
    as [Hmulti|Hnone].
  - destruct (run_invoice_items_multi w _ s Hmulti) as [s1 [lookups [-> [Hs1 Hall]]]].
    exists lookups, []. cbn [fst snd]. rewrite app_nil_r.
    repeat split; auto. intros Hsingle. exfalso.
    apply Exists_exists in Hmulti. destruct Hmulti as [line [Hin H2]].
    rewrite Forall_forall in Hsingle. apply Hsingle in Hin. lia.
  - assert (Hall : Forall (fun line => (tax_rates line <= 1)%nat) (Invoice.lines invoice)).
    { apply Forall_forall. intros line Hin.
      destruct (le_lt_dec 2 (tax_rates line)) as [H2|H1]; [|lia].
      exfalso. apply Hnone. apply Exists_exists. eauto. }
    destruct (run_invoice_items w _ s Hall) as [s1 [-> Hs1]].
    assert (Hlookups : Forall (fun c => exists id, c = stripe_taxRates_retrieve id)
                         (flat_map rate_lookups (Invoice.lines invoice))).
    { apply Forall_flat_map. apply Forall_forall. intros line _. unfold rate_lookups.
      destruct (InvoiceLineItem.tax_amounts line) as [[|first [|? ?]]|];
        repeat constructor. eexists. reflexivity. }
    destruct (run_save_invoice w client invoice contactId
                (map posted_item (Invoice.lines invoice)) s1) as [H|[invoiceId H]];
      eexists _, _; (split; [rewrite H, Hs1, <- app_assoc; reflexivity|]);
      (split; [exact Hlookups|]); (split; [intros Hm; contradiction|]);
      (split; [intros _; left; reflexivity|]).
    + right. left. reflexivity.
    + right. right. exists invoiceId. reflexivity.
Qed.

Lemma preparing_not_save (c : call) (client : AxiosInstance) (data : jsval) :
  preparing c -> c <> client_post client "/Invoice/Factory/saveInvoice" data.
Proof. intros H ->. simpl in H. discriminate H. Qed.

(** Whatever the collaborators answer and whenever the tax-rate callbacks
    run, an invoice-creation call of [onInvoiceFinalized] carries the payload
    [invoice_data] builds, with every line item as [posted_item] has it. *)
Lemma every_saved_invoice (rt : runtime) (w : world) (invoice : Invoice.t)
    (client : AxiosInstance) (data : jsval) :
  In (client_post client "/Invoice/Factory/saveInvoice" data)
     (requests (log (run w (onInvoiceFinalized rt invoice) initial).1)) ->
  exists contactId,
    data = invoice_data invoice contactId (map posted_item (Invoice.lines invoice)).
Proof.
  rewrite run_finalized.
  pose proof (sends_initial preparing w _ (sends_prepare rt invoice)) as Hpre.
  destruct (run w (prepare rt invoice) initial) as [s1 [[cl contactId]|e]];
    cbn [fst] in Hpre; rewrite Forall_forall in Hpre.
  - destruct (run_file w invoice cl contactId s1)
      as [lookups [tail [-> [Hlookups [_ [_ Htail]]]]]].
    rewrite !in_app_iff. intros [Hin|[Hin|Hin]].
    + apply list_elem_of_In, Hpre in Hin. exfalso. revert Hin.
      intros Hin. eapply preparing_not_save; [exact Hin|reflexivity].
    + rewrite Forall_forall in Hlookups. apply list_elem_of_In, Hlookups in Hin.
      destruct Hin as [id Hid]. discriminate Hid.
    + exists contactId. unfold save_request, link_invoice in Htail.
      destruct Htail as [->|[->|[invoiceId ->]]]; simpl in Hin.
      * contradiction.
      * destruct Hin as [[= _ <-]|[]]. reflexivity.
      * destruct Hin as [[= _ <-]|[[=]|[]]]. reflexivity.
  - cbn [fst]. intros Hin. apply list_elem_of_In, Hpre in Hin. exfalso.
    eapply preparing_not_save; [exact Hin|reflexivity].
Qed.

Lemma is_string_false (s : string) (x : option string) :
  x <> Some s -> is_string s x = false.
Proof.
  intros H. destruct x as [s'|]; [|reflexivity]. simpl.
  apply String.eqb_neq. congruence.
Qed.

Lemma upper_ascii_capital (c : ascii) : upper_ascii c = capital c.
Proof. destruct c as [[] [] [] [] [] [] [] []]; reflexivity. Qed.

Lemma toUpperCase_upper_cased (s : string) : upper_cased s (toUpperCase s).
Proof.
  unfold upper_cased. induction s as [|c s IH]; simpl; constructor.
  - apply upper_ascii_capital.
  - exact IH.
Qed.

(** Upper-casing determines its result. *)
Lemma upper_cased_unique (s u u' : string) :
  upper_cased s u -> upper_cased s u' -> u = u'.
Proof.
  unfold upper_cased. revert u u'.
  induction s as [|c s IH]; intros [|d u] [|d' u'] H H'; simpl in *;
    inversion H; inversion H'; subst; try reflexivity.
  f_equal. apply IH; assumption.
Qed.

Example upper_cased_chf : upper_cased "chf" "CHF" /\ ~ upper_cased "chf" "EUR".
Proof.
  split.
  - repeat constructor.
  - intros H. inversion H as [|? ? ? ? Hc _]. discriminate Hc.
Qed.

(** C7.  Every invoice-creation call the Invoice-Finalized handler sends,
    in any run, has [taxType] ['eu'] when [customer_tax_exempt] is
    ['exempt'], ['noteu'] when it is ['reverse'] and ['default'] otherwise;
    and, for a currency code of ASCII characters, its [currency] is that code
    upper-cased: character by character, each small letter replaced by its
    capital. *)
Theorem saved_invoice_tax_type_and_currency (rt : runtime) (w : world)
    (invoice : Invoice.t) (client : AxiosInstance) (data : jsval) :
  In (client_post client "/Invoice/Factory/saveInvoice" data)
     (requests (log (run w (onInvoiceFinalized rt invoice) initial).1)) ->
  exists fields,
    jget data "invoice" = Ok fields
    /\ (ascii_only (Invoice.currency invoice) ->
        exists code,
          jget fields "currency" = Ok (JStr code)
          /\ upper_cased (Invoice.currency invoice) code)
    /\ (Invoice.customer_tax_exempt invoice = Some "exempt" ->
        jget fields "taxType" = Ok (JStr "eu"))
    /\ (Invoice.customer_tax_exempt invoice = Some "reverse" ->
        jget fields "taxType" = Ok (JStr "noteu"))
    /\ (Invoice.customer_tax_exempt invoice <> Some "exempt" ->
        Invoice.customer_tax_exempt invoice <> Some "reverse" ->
        jget fields "taxType" = Ok (JStr "default")).
Proof.
  intros Hin. destruct (every_saved_invoice rt w invoice client data Hin) as [contactId ->].
  unfold invoice_data. eexists. split; [reflexivity|]. split.
  { intros _. eexists. split; [reflexivity|]. apply toUpperCase_upper_cased. }
  cbn [jget assoc String.eqb Ascii.eqb Bool.eqb default]. unfold taxType.
  split; [|split].
  - intros ->. reflexivity.
  - intros ->. reflexivity.
  - intros H1 H2. rewrite (is_string_false _ _ H1), (is_string_false _ _ H2).
    reflexivity.
Qed.

Example toUpperCase_eur : toUpperCase "eur" = "EUR".
Proof. reflexivity. Qed.

Lemma saved_invoice_tax_type_and_currency_witness :
  let invoice :=
    {| Invoice.id := "in_2"; Invoice.number := Some "A-2";
       Invoice.created := 1700000000; Invoice.currency := "chf";
       Invoice.customer_tax_exempt := Some "reverse"; Invoice.amount_paid := 0;
       Invoice.customer := "cus_1"; Invoice.lines := [Sample.line ["txr_1"]];
       Invoice.metadata := Some Sample.no_key |} in
  ascii_only "chf"
  /\ exists fields,
       jget (invoice_data invoice (JStr "42") (map posted_item [Sample.line ["txr_1"]]))
         "invoice" = Ok fields
       /\ jget fields "currency" = Ok (JStr "CHF")
       /\ (ascii_only "chf" ->
           exists code,
             jget fields "currency" = Ok (JStr code) /\ upper_cased "chf" code)
       /\ (Some "reverse" = Some "exempt" -> jget fields "taxType" = Ok (JStr "eu"))
       /\ (Some "reverse" = Some "reverse" -> jget fields "taxType" = Ok (JStr "noteu"))
       /\ (Some "reverse" <> Some "exempt" -> Some "reverse" <> Some "reverse" ->
           jget fields "taxType" = Ok (JStr "default")).
Proof.
  cbv zeta. split.
  - repeat constructor; vm_compute; lia.
  - destruct (saved_invoice_tax_type_and_currency Sample.rt
                (Sample.world_with (Sample.customer (Some (Sample.linked_to "42"))) JNull)
                {| Invoice.id := "in_2"; Invoice.number := Some "A-2";
                   Invoice.created := 1700000000; Invoice.currency := "chf";
                   Invoice.customer_tax_exempt := Some "reverse";
                   Invoice.amount_paid := 0;
                   Invoice.customer := "cus_1";
                   Invoice.lines := [Sample.line ["txr_1"]];
                   Invoice.metadata := Some Sample.no_key |}
                (sevdesk "key")
                (invoice_data
                   {| Invoice.id := "in_2"; Invoice.number := Some "A-2";
                      Invoice.created := 1700000000; Invoice.currency := "chf";
                      Invoice.customer_tax_exempt := Some "reverse";
                      Invoice.amount_paid := 0;
                      Invoice.customer := "cus_1";
                      Invoice.lines := [Sample.line ["txr_1"]];
                      Invoice.metadata := Some Sample.no_key |}
                   (JStr "42") (map posted_item [Sample.line ["txr_1"]])))
      as [fields [Hfields Hrest]].
    + vm_compute. right. right. right. left. reflexivity.
    + exists fields. split; [exact Hfields|]. split; [|exact Hrest].
      destruct Hrest as [Hcurrency _].
      destruct Hcurrency as [code [Hcode Hupper]].
      * repeat constructor; vm_compute; lia.
      * rewrite Hcode. f_equal. f_equal.
        apply (upper_cased_unique "chf"); [exact Hupper | repeat constructor].
Defined.

(** C6.  There is a finalized invoice whose only line item carries exactly
    one tax rate, of 19 percent, for which the invoice-creation request is
    submitted with that line item's [taxRate] null: the lookup of the rate is
    sent but not awaited, and its callback assigns the captured variable
    (the store ends with 19 in it) only after the line item was built. *)
Theorem tax_rate_omitted :
  exists (w : world) (invoice : Invoice.t) (line : InvoiceLineItem.t)
         (rate : TaxAmount.t) (data item : jsval),
    Invoice.lines invoice = [line]
    /\ InvoiceLineItem.tax_amounts line = Some [rate]
    /\ reply w [] (stripe_taxRates_retrieve (TaxAmount.tax_rate rate))
       = Ok {| TaxRate.percentage := 19 |}
    /\ requests (log (run w (onInvoiceFinalized Sample.rt invoice) initial).1) =
         [secret_request Sample.rt;
          stripe_customers_retrieve (Invoice.customer invoice);
          stripe_taxRates_retrieve (TaxAmount.tax_rate rate);
          client_post (sevdesk "key") "/Invoice/Factory/saveInvoice" data;
          link_invoice invoice (JStr "77")]
    /\ jget data "invoicePosSave" = Ok (JArr [item])
    /\ jget item "taxRate" = Ok JNull
    /\ vars (run w (onInvoiceFinalized Sample.rt invoice) initial).1 = [JNum 19].
Proof.
  exists (Sample.world_with (Sample.customer (Some (Sample.linked_to "42"))) JNull),
         (Sample.invoice [Sample.line ["txr_1"]] (Some Sample.no_key)),
         (Sample.line ["txr_1"]),
         {| TaxAmount.tax_rate := "txr_1" |}.
  eexists _, _. split; [reflexivity|]. split; [reflexivity|]. split; [reflexivity|].
  split; [vm_compute; reflexivity|]. split; [vm_compute; reflexivity|].
  split; vm_compute; reflexivity.
Qed.

(** X20.  The same holds of every line item of every invoice in every run,
    whenever the callbacks of the lookups run: the [taxRate] of a line item
    that is sent is [null]. *)
Lemma tax_rate_always_omitted (rt : runtime) (w : world) (invoice : Invoice.t)
    (client : AxiosInstance) (data : jsval) :
  In (client_post client "/Invoice/Factory/saveInvoice" data)
     (requests (log (run w (onInvoiceFinalized rt invoice) initial).1)) ->
  exists items,
    jget data "invoicePosSave" = Ok (JArr items)
    /\ List.length items = List.length (Invoice.lines invoice)
    /\ Forall (fun item => jget item "taxRate" = Ok JNull) items.
Proof.
  intros Hin. destruct (every_saved_invoice rt w invoice client data Hin) as [contactId ->].
  exists (map posted_item (Invoice.lines invoice)).
  split; [reflexivity|]. split; [apply length_map|].
  apply Forall_map. apply Forall_forall. intros line _. reflexivity.
Qed.

(** ** The contact of a finalized invoice *)

(** When the guard of line 93 lets the customer through, the contact id is
    what the metadata reads, and nothing is sent for it. *)
Lemma run_prepare_linked (rt : runtime) (w : world) (invoice : Invoice.t)
    (apiKey : string) (customer : Customer.t) :
  secret_is w rt apiKey ->
  customer_is w invoice customer ->
  no_link (Customer.metadata customer) = false ->
  run w (prepare rt invoice) initial =
    (retrieved rt invoice,
     Ok (sevdesk apiKey, mval_js (link (Customer.metadata customer)))).
Proof.
  intros Hkey Hcustomer Hlink. unfold prepare.
  rewrite run_sevDeskClient with (apiKey := apiKey) by auto.
  unfold await. cbn [bind]. rewrite run_await_idle by reflexivity.
  rewrite Hcustomer. cbn [bind]. unfold contact_of.
  rewrite Hlink, (guarded_link _ Hlink). reflexivity.
Qed.

(** When the guard sends the customer to the create path, the contact id is
    read, as [data.id], from what the write-back resolved to. *)
Lemma run_prepare_unlinked (rt : runtime) (w : world) (invoice : Invoice.t)
    (apiKey : string) (customer : Customer.t) (body newId updated : jsval) :
  secret_is w rt apiKey ->
  customer_is w invoice customer ->
  no_link (Customer.metadata customer) = true ->
  contact_created w apiKey customer body ->
  jget body "id" = Ok newId ->
  written_back w customer newId updated ->
  run w (prepare rt invoice) initial =
    (contact_linked rt invoice apiKey customer newId,
     match data_id updated with
     | Ok contactId => Ok (sevdesk apiKey, contactId)
     | Fail e => Fail e
     end).
Proof.
  intros Hkey Hcustomer Hlink Hpost Hid Hback. unfold prepare.
  rewrite run_sevDeskClient with (apiKey := apiKey) by auto.
  unfold await. cbn [bind]. rewrite run_await_idle by reflexivity.
  rewrite Hcustomer. cbn [bind]. rewrite run_bind.
  unfold contact_of. rewrite Hlink. cbn [negb]. unfold mbind, prog_bind.
  rewrite run_bind.
  rewrite (run_create_contact rt w customer apiKey body newId) by (auto || reflexivity).
  rewrite Hback. fold (retrieved rt invoice).
  fold (contact_linked rt invoice apiKey customer newId).
  destruct (data_id updated); reflexivity.
Qed.

(** C10.  On the create path, [createOrUpdateContact] sends the secret
    lookup, the contact creation and the write-back, and settles as the
    write-back settles: it resolves to the payment platform's answer, not to
    the accounting response.  The Invoice-Finalized handler therefore reads
    the contact id, as [data.id], from the answer to the write-back: every
    invoice it files is filed under that value (and it does file one when no
    line item has several tax rates); when the answer has no readable
    [data.id], the handler fails on that read and files nothing. *)
Theorem created_contact_resolves_to_write_back (rt : runtime) (w : world)
    (customer : Customer.t) (apiKey : string) (body newId : jsval) :
  secret_is w rt apiKey ->
  contact_created w apiKey customer body ->
  jget body "id" = Ok newId ->
  (let r := run w (createOrUpdateContact rt customer MUndefined) initial in
   requests (log r.1) =
     [secret_request rt;
      client_post (sevdesk apiKey) "/Contact" (contact_data customer);
      write_back customer newId]
   /\ r.2 = reply w (log r.1) (write_back customer newId))
  /\ (forall invoice updated,
        customer_is w invoice customer ->
        no_link (Customer.metadata customer) = true ->
        written_back w customer newId updated ->
        let r := run w (onInvoiceFinalized rt invoice) initial in
        match data_id updated with
        | Ok contactId =>
            (forall client data,
               In (client_post client "/Invoice/Factory/saveInvoice" data)
                  (requests (log r.1)) ->
               client = sevdesk apiKey
               /\ data = invoice_data invoice contactId
                           (map posted_item (Invoice.lines invoice)))
            /\ (Forall (fun line => (tax_rates line <= 1)%nat) (Invoice.lines invoice) ->
                In (save_request (sevdesk apiKey) invoice contactId)
                   (requests (log r.1)))
        | Fail e =>
            r.2 = Fail e
            /\ requests (log r.1) =
                 [secret_request rt;
                  stripe_customers_retrieve (Invoice.customer invoice);
                  secret_request rt;
                  client_post (sevdesk apiKey) "/Contact" (contact_data customer);
                  write_back customer newId]
        end).
Proof.
  intros Hkey Hpost Hid. split.
  - cbv zeta.
    rewrite (run_create_contact rt w customer apiKey body newId initial)
      by (auto || reflexivity).
    split; reflexivity.
  - intros invoice updated Hcustomer Hlink Hback. cbv zeta. rewrite run_finalized.
    rewrite (run_prepare_unlinked rt w invoice apiKey customer body newId updated)
      by assumption.
    destruct (data_id updated) as [contactId|e]; [|split; reflexivity].
    destruct (run_file w invoice (sevdesk apiKey) contactId
                (contact_linked rt invoice apiKey customer newId))
      as [lookups [tail [Hreq [Hlookups [_ [Hsingle Htail]]]]]].
    rewrite Hreq. split.
    + intros client data. rewrite !in_app_iff. intros [Hin|[Hin|Hin]].
      * simpl in Hin. unfold secret_request, write_back in Hin.
        destruct Hin as [[=]|[[=]|[[=]|[[=]|[[=]|[]]]]]].
      * rewrite Forall_forall in Hlookups. apply list_elem_of_In, Hlookups in Hin.
        destruct Hin as [id Hid']. discriminate Hid'.
      * unfold save_request, link_invoice in Htail.
        destruct Htail as [->|[->|[invoiceId ->]]]; simpl in Hin.
        -- contradiction.
        -- destruct Hin as [[= <- <-]|[]]. auto.
        -- destruct Hin as [[= <- <-]|[[=]|[]]]. auto.
    + intros Hall. rewrite !in_app_iff. right. right. exact (Hsingle Hall).
Qed.

Lemma created_contact_resolves_to_write_back_witness :
  let customer := Sample.customer None in
  let invoice := Sample.invoice [Sample.line ["txr_1"]] (Some Sample.no_key) in
  let w := Sample.world_with customer Sample.updated_customer in
  (let r := run w (createOrUpdateContact Sample.rt customer MUndefined) initial in
   requests (log r.1) =
     [secret_request Sample.rt;
      client_post (sevdesk "key") "/Contact" (contact_data customer);
      write_back customer (JStr "77")]
   /\ r.2 = Ok Sample.updated_customer)
  /\ (let r := run w (onInvoiceFinalized Sample.rt invoice) initial in
      r.2 = Fail (TypeError "Cannot read properties of undefined (reading 'id')")
      /\ requests (log r.1) =
           [secret_request Sample.rt;
            stripe_customers_retrieve "cus_1";
            secret_request Sample.rt;
            client_post (sevdesk "key") "/Contact" (contact_data customer);
            write_back customer (JStr "77")]).
Proof.
  cbv zeta.
  destruct (created_contact_resolves_to_write_back Sample.rt
              (Sample.world_with (Sample.customer None) Sample.updated_customer)
              (Sample.customer None) "key" (JObj [("id", JStr "77")]) (JStr "77"))
    as [Hcall Hhandler].
  - intros history. reflexivity.
  - intros history. reflexivity.
  - reflexivity.
  - split; [exact Hcall|].
    refine (Hhandler (Sample.invoice [Sample.line ["txr_1"]] (Some Sample.no_key))
              Sample.updated_customer _ _ _).
    + intros history. reflexivity.
    + reflexivity.
    + intros history. reflexivity.
Defined.

(** C2, at two customers without a linkage id.  When the key is missing
    from the metadata, [null !== undefined] sends the customer down the
    linked branch: no contact is created and the invoice is filed under the
    contact id [undefined].  When the entry is [null], the contact is
    created and written back, but the id is then read from the customer
    object the write-back resolved to, which has no [data]: the handler
    fails on that read and files no invoice. *)
Theorem unlinked_customer_invoice :
  let invoice := Sample.invoice [Sample.line []] (Some Sample.no_key) in
  let missing := Sample.customer (Some Sample.no_key) in
  let nulled := Sample.customer (Some Sample.null_entry) in
  (linkage_id (Customer.metadata missing) = None
   /\ requests (log (run (Sample.world_with missing Sample.updated_customer)
                       (onInvoiceFinalized Sample.rt invoice) initial).1) =
        [secret_request Sample.rt;
         stripe_customers_retrieve "cus_1";
         save_request (sevdesk "key") invoice JUndefined;
         link_invoice invoice (JStr "77")])
  /\ (linkage_id (Customer.metadata nulled) = None
      /\ run (Sample.world_with nulled Sample.updated_customer)
           (onInvoiceFinalized Sample.rt invoice) initial =
         ({| log := map Requested
                      [secret_request Sample.rt;
                       stripe_customers_retrieve "cus_1";
                       secret_request Sample.rt;
                       client_post (sevdesk "key") "/Contact" (contact_data nulled);
                       write_back nulled (JStr "77")];
             vars := []; jobs := [] |},
          Fail (TypeError "Cannot read properties of undefined (reading 'id')"))).
Proof.
  cbv zeta. repeat split; vm_compute; reflexivity.
Qed.

(** When the guard of line 93 lets the customer through, no contact is
    created, and the invoice, if one is filed, is filed under what the
    metadata reads: the linkage id, or [undefined] when the key is missing. *)
Lemma guarded_customer_invoice (rt : runtime) (w : world) (invoice : Invoice.t)
    (apiKey : string) (customer : Customer.t) :
  secret_is w rt apiKey ->
  customer_is w invoice customer ->
  no_link (Customer.metadata customer) = false ->
  let contactId := mval_js (link (Customer.metadata customer)) in
  exists lookups tail,
    requests (log (run w (onInvoiceFinalized rt invoice) initial).1) =
      [secret_request rt; stripe_customers_retrieve (Invoice.customer invoice)]
      ++ lookups ++ tail
    /\ Forall (fun c => exists rate, c = stripe_taxRates_retrieve rate) lookups
    /\ (Forall (fun line => (tax_rates line <= 1)%nat) (Invoice.lines invoice) ->
        In (save_request (sevdesk apiKey) invoice contactId) tail)
    /\ (tail = []
        \/ tail = [save_request (sevdesk apiKey) invoice contactId]
        \/ exists invoiceId,
             tail = [save_request (sevdesk apiKey) invoice contactId;
                     link_invoice invoice invoiceId]).
Proof.
  intros Hkey Hcustomer Hno. cbv zeta. rewrite run_finalized.
  rewrite (run_prepare_linked rt w invoice apiKey customer) by assumption.
  destruct (run_file w invoice (sevdesk apiKey)
              (mval_js (link (Customer.metadata customer))) (retrieved rt invoice))
    as [lookups [tail [Hreq [Hlookups [_ [Hsingle Htail]]]]]].
  exists lookups, tail. rewrite Hreq. auto.
Qed.

(** What does hold for C2: for a customer with a linkage id no contact is
    created, and the invoice, if one is filed, is filed under that id. *)
Lemma linked_customer_invoice (rt : runtime) (w : world) (invoice : Invoice.t)
    (apiKey : string) (customer : Customer.t) (id : string) :
  secret_is w rt apiKey ->
  customer_is w invoice customer ->
  linkage_id (Customer.metadata customer) = Some id ->
  exists lookups tail,
    requests (log (run w (onInvoiceFinalized rt invoice) initial).1) =
      [secret_request rt; stripe_customers_retrieve (Invoice.customer invoice)]
      ++ lookups ++ tail
    /\ Forall (fun c => exists rate, c = stripe_taxRates_retrieve rate) lookups
    /\ (Forall (fun line => (tax_rates line <= 1)%nat) (Invoice.lines invoice) ->
        In (save_request (sevdesk apiKey) invoice (JStr id)) tail)
    /\ (tail = []
        \/ tail = [save_request (sevdesk apiKey) invoice (JStr id)]
        \/ exists invoiceId,
             tail = [save_request (sevdesk apiKey) invoice (JStr id);
                     link_invoice invoice invoiceId]).
Proof.
  intros Hkey Hcustomer Hid. destruct (linked_link _ _ Hid) as [Hno Hlink].
  pose proof (guarded_customer_invoice rt w invoice apiKey customer
                Hkey Hcustomer Hno) as H.
  cbv zeta in H. rewrite Hlink in H. exact H.
Qed.

(** X22.  The missing key in general: a customer whose metadata has no
    [sevdesk_id] key gets no contact, and the invoice is filed under
    [undefined]. *)
Lemma keyless_customer_invoice (rt : runtime) (w : world) (invoice : Invoice.t)
    (apiKey : string) (customer : Customer.t) (m : gmap string (option string)) :
  secret_is w rt apiKey ->
  customer_is w invoice customer ->
  Customer.metadata customer = Some m ->
  m !! "sevdesk_id" = None ->
  Forall (fun line => (tax_rates line <= 1)%nat) (Invoice.lines invoice) ->
  let sent := requests (log (run w (onInvoiceFinalized rt invoice) initial).1) in
  In (save_request (sevdesk apiKey) invoice JUndefined) sent
  /\ Forall (fun c => forall client url data,
                c = client_post client url data -> url <> "/Contact") sent.
Proof.
  intros Hkey Hcustomer Hm Hnone Hsingle. cbv zeta.
  assert (Hno : no_link (Customer.metadata customer) = false).
  { rewrite Hm. unfold no_link, sevdesk_id. rewrite Hnone. reflexivity. }
  assert (Hlink : link (Customer.metadata customer) = MUndefined).
  { rewrite Hm. unfold link, sevdesk_id. rewrite Hnone. reflexivity. }
  destruct (guarded_customer_invoice rt w invoice apiKey customer Hkey Hcustomer Hno)
    as [lookups [tail [-> [Hlookups [Hin Htail]]]]].
  rewrite Hlink in *. cbn [mval_js] in *. split.
  - rewrite !in_app_iff. right. right. exact (Hin Hsingle).
  - apply Forall_app. split; [|apply Forall_app; split].
    + repeat constructor; intros ? ? ? [=].
    + eapply Forall_impl; [exact Hlookups|]. intros c [rate ->] ? ? ? [=].
    + unfold save_request, link_invoice in Htail.
      destruct Htail as [->|[->|[invoiceId ->]]]; repeat constructor;
        intros ? ? ? [=]; subst; discriminate.
Qed.

(** ** Line items with several tax rates *)


(** The same with an answer to the write-back that has a [data.id]: the
    handler then fails with the validation error, after the contact was
    created. *)
Lemma multi_rate_invoice_after_contact :
  let invoice := Sample.invoice [Sample.line ["txr_1"; "txr_2"]] (Some Sample.no_key) in
  let w := Sample.world_with (Sample.customer None)
             (JObj [("data", JObj [("id", JStr "77")])]) in
  run w (onInvoiceFinalized Sample.rt invoice) initial =
    ({| log := map Requested
                 [secret_request Sample.rt;
                  stripe_customers_retrieve "cus_1";
                  secret_request Sample.rt;
                  client_post (sevdesk "key") "/Contact"
                    (contact_data (Sample.customer None));
                  write_back (Sample.customer None) (JStr "77")];
        vars := [JNull]; jobs := [] |},
     Fail multiple_rates).
Proof. vm_compute. reflexivity. Qed.




(** * Further properties *)

(** ** Requests of a run *)

(** A run only adds requests. *)
Lemma run_requests_grow {A : Type} (w : world) (p : prog A) (s : state) :
  exists more, requests (log (run w p s).1) = requests (log s) ++ more.
Proof.
  revert s. induction p as [a|e|c k IH|c cb k IH|v k IH|x k IH]; intros s; simpl.
  - exists []. symmetry. apply app_nil_r.
  - exists []. symmetry. apply app_nil_r.
  - match goal with |- context [run w (k ?r) ?s1] => destruct (IH r s1) as [more ->] end.
    rewrite requests_await, <- app_assoc. eauto.
  - match goal with |- context [run w k ?s1] => destruct (IH s1) as [more ->] end.
    simpl. change (log s ++ [Requested c]) with (log (emit (Requested c) s)).
    rewrite requests_emit, <- app_assoc. eauto.
  - match goal with |- context [run w (k ?x) ?s1] => destruct (IH x s1) as [more ->] end.
    simpl. eauto.
  - apply IH.
Qed.

Lemma requests_emit_other (e : effect) (s : state) :
  (forall c, e <> Requested c) ->
  requests (log (emit e s)) = requests (log s).
Proof.
  intros H. unfold requests. simpl. rewrite omap_app. simpl.
  destruct e; try apply app_nil_r. exfalso. eapply H. reflexivity.
Qed.

Lemma sends_start {A : Type} (P : call -> Prop) (p : prog A) (s : state) :
  sends P p ->
  Forall P (requests (log s)) ->
  Forall P (requests (log (start p s).1))
  /\ match (start p s).2 with
     | Settled _ => True
     | Suspended c k => forall r, sends P (k r)
     end.
Proof.
  revert s. induction p as [a|e|c k IH|c cb k IH|v k IH|x k IH]; intros s Hp Hs;
    simpl in *; auto.
  - destruct Hp as [Hc Hk]. split; [|exact Hk].
    change (log s ++ [Requested c]) with (log (emit (Requested c) s)).
    rewrite requests_emit. apply Forall_app; auto.
  - destruct Hp as [Hc Hk]. apply IH; [exact Hk|]. simpl.
    change (log s ++ [Requested c]) with (log (emit (Requested c) s)).
    rewrite requests_emit. apply Forall_app; auto.
Qed.

Lemma sends_resume {A : Type} (P : call -> Prop) (w : world) (q : paused A) (s : state) :
  match q with
  | Settled _ => True
  | Suspended c k => forall r, sends P (k r)
  end ->
  Forall P (requests (log s)) ->
  Forall P (requests (log (resume w q s).1)).
Proof.
  destruct q as [r|c k]; simpl; intros Hq Hs; [exact Hs|].
  apply sends_run; [apply Hq|]. rewrite run_due_requests. exact Hs.
Qed.

Lemma send_requests (b : body) (res : Response) (s : state) :
  requests (log (send b res s).1.1) = requests (log s).
Proof.
  unfold send. destruct (headersSent res); [reflexivity|].
  cbn [fst]. apply requests_emit_other. discriminate.
Qed.

Lemma handleError_requests (res : Response) (e : exn) (s : state) :
  requests (log (handleError res e s).1) = requests (log s).
Proof.
  unfold handleError.
  pose proof (send_requests
                (Json (JObj [("error", JBool true); ("message", message_of e)]))
                (status 500 res) (emit (Logged (response_of e)) s)) as H.
  destruct (send _ _ _) as [[s2 res2] [thrown|]]; cbn [fst] in *;
    rewrite requests_emit_other by discriminate; rewrite H;
    apply requests_emit_other; discriminate.
Qed.

(** The callbacks on a handler's promise send nothing. *)
Lemma react_requests (res : Response) (r : outcome jsval) (s : state) :
  requests (log (react res r s).1) = requests (log s).
Proof.
  unfold react. destruct r as [v|e]; [|apply handleError_requests].
  pose proof (send_requests (Json (JObj [("received", JBool true)])) res s) as H.
  destruct (send _ _ _) as [[s1 res1] [thrown|]]; cbn [fst] in *.
  - rewrite handleError_requests. exact H.
  - exact H.
Qed.

Lemma sends_bind_returns {A B : Type} (P : call -> Prop) (Q : A -> Prop)
    (p : prog A) (f : A -> prog B) :
  sends P p -> returns Q p -> (forall a, Q a -> sends P (f a)) -> sends P (bind p f).
Proof.
  intros Hp Hq Hf. induction p as [a|e|c k IH|c cb k IH|v k IH|x k IH]; simpl in *;
    auto; destruct Hp; auto.
Qed.

(** ** Where requests go *)

Lemma returns_sevDeskClient (rt : runtime) :
  returns (fun client => baseURL client = "https://my.sevdesk.de/api/v1/")
          (sevDeskClient rt).
Proof. intros [v|e]; simpl; auto. Qed.

Lemma sevDeskClient_addressed (rt : runtime) :
  sends (well_addressed rt) (sevDeskClient rt).
Proof.
  unfold sevDeskClient, accessSecretVersion, mbind, prog_bind.
  repeat (apply sends_bind; [|intros; try exact I]). apply sends_await. reflexivity.
Qed.

(** The steps every handler is made of: get the client, then send through
    it. *)
Ltac through_client rt :=
  unfold mbind, prog_bind;
  apply sends_bind_returns
    with (Q := fun client => baseURL client = "https://my.sevdesk.de/api/v1/");
  [apply sevDeskClient_addressed | apply returns_sevDeskClient | intros ? ?].

(** A call through the client, followed by what does not touch it. *)
Lemma post_addressed (rt : runtime) (client : AxiosInstance) (url : string)
    (data : jsval) :
  baseURL client = "https://my.sevdesk.de/api/v1/" ->
  sends (well_addressed rt) (post client url data).
Proof.
  intros H. unfold post, mbind, prog_bind.
  apply sends_bind; [apply sends_await; exact H | intros; exact I].
Qed.

Lemma put_addressed (rt : runtime) (client : AxiosInstance) (url : string)
    (data : jsval) :
  baseURL client = "https://my.sevdesk.de/api/v1/" ->
  sends (well_addressed rt) (put client url data).
Proof.
  intros H. unfold put, mbind, prog_bind.
  apply sends_bind; [apply sends_await; exact H | intros; exact I].
Qed.

Lemma createOrUpdateContact_addressed (rt : runtime) (customer : Customer.t)
    (customerId : mval) :
  sends (well_addressed rt) (createOrUpdateContact rt customer customerId).
Proof.
  unfold createOrUpdateContact. through_client rt.
  destruct customerId; try (apply put_addressed; assumption).
  unfold mbind, prog_bind. apply sends_bind; [apply post_addressed; assumption|].
  intros response. apply sends_bind; [apply sends_lift|].
  intros id. apply sends_await. exact I.
Qed.

Lemma onCustomerUpdated_addressed (rt : runtime) (customer : Customer.t) :
  sends (well_addressed rt) (onCustomerUpdated rt customer).
Proof.
  unfold onCustomerUpdated. destruct (no_link _).
  - apply createOrUpdateContact_addressed.
  - unfold mbind, prog_bind. apply sends_bind; [apply sends_lift|].
    intros customerId. apply createOrUpdateContact_addressed.
Qed.

Lemma onInvoicePaid_addressed (rt : runtime) (invoice : Invoice.t) :
  sends (well_addressed rt) (onInvoicePaid rt invoice).
Proof.
  unfold onInvoicePaid. destruct (no_link _); [exact I|].
  unfold mbind, prog_bind. apply sends_bind; [apply sends_lift|]. intros invoiceId.
  through_client rt. apply put_addressed. assumption.
Qed.

Lemma onInvoiceVoided_addressed (rt : runtime) (invoice : Invoice.t) :
  sends (well_addressed rt) (onInvoiceVoided rt invoice).
Proof.
  unfold onInvoiceVoided. destruct (no_link _); [exact I|].
  unfold mbind, prog_bind. apply sends_bind; [apply sends_lift|]. intros invoiceId.
  through_client rt. apply post_addressed. assumption.
Qed.

Lemma invoice_item_addressed (rt : runtime) (line : InvoiceLineItem.t) :
  sends (well_addressed rt) (invoice_item line).
Proof.
  unfold invoice_item, mbind, prog_bind. intros taxRate.
  apply sends_bind; [|intros; intros v; exact I].
  destruct (InvoiceLineItem.tax_amounts line) as [[|first others]|]; try exact I.
  destruct (_ <? _)%nat; simpl; auto.
Qed.

Lemma onInvoiceFinalized_addressed (rt : runtime) (invoice : Invoice.t) :
  sends (well_addressed rt) (onInvoiceFinalized rt invoice).
Proof.
  unfold onInvoiceFinalized. through_client rt.
  apply sends_bind; [apply sends_await; exact I|]. intros customer.
  apply sends_bind.
  - unfold contact_of, mbind, prog_bind. destruct (negb _).
    + apply sends_bind; [apply sends_lift | intros; exact I].
    + apply sends_bind; [apply createOrUpdateContact_addressed|].
      intros; apply sends_lift.
  - intros contactId.
    apply sends_bind; [apply sends_map_prog; apply invoice_item_addressed|].
    intros items. unfold save_invoice. apply sends_try_catch; [|intros; exact I].
    unfold mbind, prog_bind. apply sends_bind; [apply post_addressed; assumption|].
    intros response. apply sends_bind; [apply sends_lift|].
    intros invoiceId. apply sends_bind; [apply sends_await; exact I|].
    intros; exact I.
Qed.

Lemma dispatch_addressed (rt : runtime) (event : Event) (handler : prog jsval) :
  dispatch rt event = Some handler -> sends (well_addressed rt) handler.
Proof.
  unfold dispatch. generalize (object event).
  destruct (classify (type event)); intros o [= <-].
  - apply onInvoiceFinalized_addressed.
  - apply onInvoicePaid_addressed.
  - apply onInvoiceVoided_addressed.
  - apply onCustomerUpdated_addressed.
  - apply onCustomerUpdated_addressed.
Qed.

(** X1.  Whatever request comes in and whatever the collaborators answer,
    every secret lookup the entry point causes asks for the secret named by
    [SEVDESK_API_KEY_SECRET] (for the name ["undefined"] when the variable is
    not set), and every accounting request goes through a client whose base
    URL is the SevDesk API. *)
Theorem every_request_well_addressed (rt : runtime)
    (constructEvent : string -> option string -> option string -> verification)
    (w : world) (req : Request) :
  Forall (well_addressed rt) (requests (log (webhook rt constructEvent w req).1)).
Proof.
  unfold webhook. destruct (constructEvent _ _ _) as [event|message].
  - destruct (dispatch rt event) as [handler|] eqn:Hd.
    + pose proof (sends_start (well_addressed rt) handler initial
                    (dispatch_addressed rt event handler Hd)
                    (List.Forall_nil _)) as [Hs Hq].
      destruct (start handler initial) as [s1 q]. cbn [fst snd] in Hs, Hq.
      unfold send, status. cbn [headersSent statusCode].
      match goal with |- context [resume w q ?s3] =>
        pose proof (sends_resume (well_addressed rt) w q s3 Hq) as Hr;
        destruct (resume w q s3) as [s4 r] end.
      match goal with |- context [react ?res3 r s4] =>
        pose proof (react_requests res3 r s4) as Hreact;
        destruct (react res3 r s4) as [s5 res5] end.
      cbn [fst] in *. rewrite Hreact. apply Hr.
      rewrite !requests_emit_other by discriminate. exact Hs.
    + constructor.
  - constructor.
Qed.

(** ** Responses of the entry point *)


(** The acknowledgment under the status 400 occurs: collaborators that
    answer every request while the end of the first response is still
    pending. *)
Example late_acknowledgment_under_400 :
  let w := {| reply := reply (Sample.world_with (Sample.customer None) JNull);
              due := fun _ => 8%nat;
              flushed := fun _ => false |} in
  let event := {| type := "invoice.paid";
                  object := Sample.invoice [] (Some (Sample.linked_to "42")) |} in
  responses (log (webhook Sample.rt (fun _ _ _ => Verified event) w Sample.request).1)
  = [(400, Text "Event type not supported");
     (400, Json (JObj [("received", JBool true)]))].
Proof. vm_compute. reflexivity. Qed.

Lemma classify_handled (t : string) :
  ~ In t ["invoice.finalized"; "invoice.paid"; "invoice.voided";
          "customer.created"; "customer.updated"] ->
  classify t = payout_paid \/ classify t = unsupported.
Proof.
  intros H. unfold classify.
  repeat match goal with
         | |- context [String.eqb t ?s] =>
             destruct (String.eqb_spec t s) as [->|_]
         end;
    auto; exfalso; apply H; simpl; auto 10.
Qed.

Lemma dispatch_unhandled (rt : runtime) (event : Event) :
  ~ In (type event) ["invoice.finalized"; "invoice.paid"; "invoice.voided";
                     "customer.created"; "customer.updated"] ->
  dispatch rt event = None.
Proof.
  intros H. apply classify_handled in H. unfold dispatch.
  generalize (object event).
  destruct H as [-> | ->]; reflexivity.
Qed.

(** X3.  A verified event whose type is none of the five handled ones
    ([payout.paid] included) starts no handler and sends no request: the run
    consists of the answer 400 ['Event type not supported'] and the error
    ['Unhandled event type <type>'] the entry point throws. *)
Theorem unhandled_event_type (rt : runtime)
    (constructEvent : string -> option string -> option string -> verification)
    (w : world) (req : Request) (event : Event) :
  constructEvent (rawBody req) (stripe_signature req) (STRIPE_WEBHOOK_SECRET rt)
    = Verified event ->
  ~ In (type event) ["invoice.finalized"; "invoice.paid"; "invoice.voided";
                     "customer.created"; "customer.updated"] ->
  webhook rt constructEvent w req =
    ({| log := [Responded 400 (Text "Event type not supported");
                Uncaught (Error ("Unhandled event type " +:+ type event))];
        vars := []; jobs := [] |},
     {| statusCode := 400; headersSent := true |}).
Proof.
  intros Hv Ht. unfold webhook. rewrite Hv, (dispatch_unhandled rt event Ht).
  reflexivity.
Qed.

Lemma unhandled_event_type_witness :
  webhook Sample.rt
    (fun _ _ _ => Verified {| type := "payout.paid"; object := JObj [] |})
    (Sample.world_with (Sample.customer None) JNull) Sample.request =
    ({| log := [Responded 400 (Text "Event type not supported");
                Uncaught (Error "Unhandled event type payout.paid")];
        vars := []; jobs := [] |},
     {| statusCode := 400; headersSent := true |}).
Proof.
  apply (unhandled_event_type Sample.rt
           (fun _ _ _ => Verified {| type := "payout.paid"; object := JObj [] |})
           (Sample.world_with (Sample.customer None) JNull) Sample.request
           {| type := "payout.paid"; object := JObj [] |}).
  - reflexivity.
  - simpl. intros [H|[H|[H|[H|[H|[]]]]]]; discriminate H.
Defined.

(** ** The contact payload *)

(** X4.  The payload of a contact carries the customer's name, the fixed
    category 3, the payment-platform customer id as description and the
    exemption flag.  Only the first tax id counts: if it is an EU VAT id, the
    payload has it as [vatNumber] with [taxType] ['eu']; if it is of another
    type, both fields are [null]; with no tax id (none listed, or the
    property undefined) the payload has neither field. *)
Theorem contact_payload (customer : Customer.t) :
  let data := contact_data customer in
  jget data "name" = Ok (of_string (Customer.name customer))
  /\ jget data "category" = Ok (JObj [("id", JInt 3); ("objectName", JStr "Category")])
  /\ jget data "description" = Ok (JStr (Customer.id customer))
  /\ jget data "exemptVat" =
     Ok (JBool (bool_decide (Customer.tax_exempt customer = Some "exempt")))
  /\ match Customer.tax_ids customer with
     | Some (taxId :: _) =>
         jget data "vatNumber" =
           Ok (if decide (TaxId.type taxId = "eu_vat")
               then JStr (TaxId.value taxId) else JNull)
         /\ jget data "taxType" =
            Ok (if decide (TaxId.type taxId = "eu_vat") then JStr "eu" else JNull)
     | _ =>
         jget data "vatNumber" = Ok JUndefined
         /\ jget data "taxType" = Ok JUndefined
     end.
Proof.
  cbv zeta. unfold contact_data.
  assert (Hexempt : is_string "exempt" (Customer.tax_exempt customer)
                    = bool_decide (Customer.tax_exempt customer = Some "exempt")).
  { unfold is_string. destruct (Customer.tax_exempt customer) as [s|].
    - destruct (String.eqb_spec "exempt" s) as [<-|Hne].
      + symmetry. apply bool_decide_eq_true_2. reflexivity.
      + symmetry. apply bool_decide_eq_false_2. congruence.
    - symmetry. apply bool_decide_eq_false_2. discriminate. }
  destruct (Customer.tax_ids customer) as [[|taxId rest]|];
    try (rewrite Hexempt; repeat split; reflexivity).
  repeat split; try (rewrite Hexempt); try reflexivity.
  - destruct (String.eqb_spec "eu_vat" (TaxId.type taxId)) as [<-|Hne];
      destruct (decide _) as [Heq|Hneq]; try reflexivity; congruence.
  - destruct (String.eqb_spec "eu_vat" (TaxId.type taxId)) as [<-|Hne];
      destruct (decide _) as [Heq|Hneq]; try reflexivity; congruence.
Qed.

(** ** Failure of the secret provider *)

Lemma run_sevDeskClient_fails {B : Type} (w : world) (rt : runtime) (e : exn)
    (f : AxiosInstance -> prog B) (s : state) :
  secret_fails w rt e ->
  jobs s = [] ->
  run w (bind (sevDeskClient rt) f) s = (emit (Requested (secret_request rt)) s, Fail e).
Proof.
  intros Hkey Hjobs. unfold sevDeskClient, accessSecretVersion, await.
  cbn [mbind prog_bind bind]. rewrite run_await_idle by exact Hjobs.
  fold (secret_request rt). rewrite Hkey. reflexivity.
Qed.

(** X5.  When the secret provider rejects the lookup of the API key, every
    handler rejects with the provider's reason, unchanged, and the lookup is
    the only request it has sent; the paid and voided handlers whose guard
    fires do not even look the key up. *)
Theorem secret_failure_aborts (rt : runtime) (w : world) (e : exn)
    (invoice : Invoice.t) (customer : Customer.t) :
  secret_fails w rt e ->
  let failed := (emit (Requested (secret_request rt)) initial, @Fail jsval e) in
  run w (onInvoiceFinalized rt invoice) initial = failed
  /\ run w (onCustomerUpdated rt customer) initial = failed
  /\ run w (onInvoicePaid rt invoice) initial =
     (if no_link (Invoice.metadata invoice)
      then (initial, Fail (Error "No SevDesk link found.")) else failed)
  /\ run w (onInvoiceVoided rt invoice) initial =
     (if no_link (Invoice.metadata invoice)
      then (initial, Fail (Error "No SevDesk link found.")) else failed).
Proof.
  intros Hkey. cbv zeta. split; [|split; [|split]].
  - unfold onInvoiceFinalized, mbind, prog_bind.
    apply run_sevDeskClient_fails; auto.
  - unfold onCustomerUpdated.
    destruct (no_link (Customer.metadata customer)) eqn:Hno.
    + unfold createOrUpdateContact, mbind, prog_bind.
      apply run_sevDeskClient_fails; auto.
    + rewrite (guarded_link _ Hno). unfold createOrUpdateContact, mbind, prog_bind.
      cbn [lift bind]. apply run_sevDeskClient_fails; auto.
  - unfold onInvoicePaid. destruct (no_link (Invoice.metadata invoice)) eqn:Hno;
      [reflexivity|].
    rewrite (guarded_link _ Hno). unfold mbind, prog_bind. cbn [lift bind].
    apply run_sevDeskClient_fails; auto.
  - unfold onInvoiceVoided. destruct (no_link (Invoice.metadata invoice)) eqn:Hno;
      [reflexivity|].
    rewrite (guarded_link _ Hno). unfold mbind, prog_bind. cbn [lift bind].
    apply run_sevDeskClient_fails; auto.
Qed.

Lemma secret_failure_aborts_witness :
  let invoice := Sample.invoice [Sample.line ["txr_1"]] (Some (Sample.linked_to "42")) in
  let customer := Sample.customer None in
  let failed := (emit (Requested (secret_request Sample.rt)) initial,
                 @Fail jsval Outage.denied) in
  run Outage.no_secret (onInvoiceFinalized Sample.rt invoice) initial = failed
  /\ run Outage.no_secret (onCustomerUpdated Sample.rt customer) initial = failed
  /\ run Outage.no_secret (onInvoicePaid Sample.rt invoice) initial = failed
  /\ run Outage.no_secret (onInvoiceVoided Sample.rt invoice) initial = failed.
Proof.
  cbv zeta.
  apply (secret_failure_aborts Sample.rt Outage.no_secret Outage.denied
           (Sample.invoice [Sample.line ["txr_1"]] (Some (Sample.linked_to "42")))
           (Sample.customer None)).
  intros history. reflexivity.
Defined.

(** ** Paid and voided invoices *)

(** X6.  For an invoice with a linkage id and with the API key at hand, the
    voided handler sends exactly one accounting request, the cancellation of
    the linked accounting invoice, without a body, and settles as that call
    settles: with the response object, or with the reason of the rejection
    unchanged. *)
Theorem voided_cancels_linked_invoice (rt : runtime) (w : world) (invoice : Invoice.t)
    (id apiKey : string) :
  linkage_id (Invoice.metadata invoice) = Some id ->
  secret_is w rt apiKey ->
  let r := run w (onInvoiceVoided rt invoice) initial in
  requests (log r.1) = [secret_request rt; cancel_request apiKey id]
  /\ r.2 = as_response
             (reply w [Requested (secret_request rt);
                       Requested (cancel_request apiKey id)]
                (cancel_request apiKey id)).
Proof.
  intros Hid Hkey. destruct (linked_link _ _ Hid) as [Hno Hlink]. cbv zeta.
  unfold onInvoiceVoided. rewrite Hno, (guarded_link _ Hno), Hlink.
  unfold mbind, prog_bind. cbn [lift bind].
  rewrite run_sevDeskClient with (apiKey := apiKey) by auto.
  unfold post, await, mbind, prog_bind. cbn [bind mval_string].
  rewrite run_await_idle by reflexivity.
  fold (cancel_request apiKey id). cbn [log emit initial app].
  destruct (reply w _ (cancel_request apiKey id)); split; reflexivity.
Qed.

Lemma voided_cancels_linked_invoice_witness :
  let invoice := Sample.invoice [] (Some (Sample.linked_to "42")) in
  let r := run (Outage.no_accounting (Sample.customer None))
             (onInvoiceVoided Sample.rt invoice) initial in
  requests (log r.1) = [secret_request Sample.rt; cancel_request "key" "42"]
  /\ r.2 = Fail Outage.unprocessable.
Proof.
  cbv zeta.
  apply (voided_cancels_linked_invoice Sample.rt
           (Outage.no_accounting (Sample.customer None))
           (Sample.invoice [] (Some (Sample.linked_to "42"))) "42" "key").
  - vm_compute. reflexivity.
  - intros history. reflexivity.
Defined.

(** X7.  Under the same conditions the paid handler settles as its booking
    call settles: it resolves to the response object, and a rejection of the
    booking reaches the caller with its reason unchanged. *)
Theorem paid_settles_as_booking (rt : runtime) (w : world) (invoice : Invoice.t)
    (id apiKey : string) :
  linkage_id (Invoice.metadata invoice) = Some id ->
  secret_is w rt apiKey ->
  let r := run w (onInvoicePaid rt invoice) initial in
  requests (log r.1) = [secret_request rt; booking_request rt apiKey invoice id]
  /\ r.2 = as_response
             (reply w [Requested (secret_request rt);
                       Requested (booking_request rt apiKey invoice id)]
                (booking_request rt apiKey invoice id)).
Proof.
  intros Hid Hkey. destruct (linked_link _ _ Hid) as [Hno Hlink]. cbv zeta.
  unfold onInvoicePaid. rewrite Hno, (guarded_link _ Hno), Hlink.
  unfold mbind, prog_bind. cbn [lift bind].
  rewrite run_sevDeskClient with (apiKey := apiKey) by auto.
  unfold put, await, mbind, prog_bind. cbn [bind mval_string].
  rewrite run_await_idle by reflexivity.
  fold (booking_request rt apiKey invoice id). cbn [log emit initial app].
  destruct (reply w _ (booking_request rt apiKey invoice id)); split; reflexivity.
Qed.

Lemma paid_settles_as_booking_witness :
  let invoice := Sample.invoice [] (Some (Sample.linked_to "42")) in
  let r := run (Outage.no_accounting (Sample.customer None))
             (onInvoicePaid Sample.rt invoice) initial in
  requests (log r.1) =
    [secret_request Sample.rt; booking_request Sample.rt "key" invoice "42"]
  /\ r.2 = Fail Outage.unprocessable.
Proof.
  cbv zeta.
  apply (paid_settles_as_booking Sample.rt
           (Outage.no_accounting (Sample.customer None))
           (Sample.invoice [] (Some (Sample.linked_to "42"))) "42" "key").
  - vm_compute. reflexivity.
  - intros history. reflexivity.
Defined.

Lemma no_link_iff (metadata : option (gmap string (option string))) :
  no_link metadata = true <->
  metadata = None \/ exists m, metadata = Some m /\ m !! "sevdesk_id" = Some None.
Proof.
  unfold no_link, sevdesk_id. destruct metadata as [m|].
  - destruct (m !! "sevdesk_id") as [[s|]|] eqn:E; split; try discriminate; eauto.
    + intros [H|[m' [[= <-] H]]]; congruence.
    + intros [H|[m' [[= <-] H]]]; congruence.
  - split; auto.
Qed.

Lemma run_sevDeskClient_sends {B : Type} (w : world) (rt : runtime)
    (f : AxiosInstance -> prog B) :
  requests (log (run w (bind (sevDeskClient rt) f) initial).1) <> [].
Proof.
  unfold sevDeskClient, accessSecretVersion, await. cbn [mbind prog_bind bind run].
  match goal with |- context [run w ?p ?s] =>
    destruct (run_requests_grow w p s) as [more ->] end.
  rewrite requests_await. simpl. discriminate.
Qed.

Lemma run_sevDeskClient_first {B : Type} (w : world) (rt : runtime)
    (f : AxiosInstance -> prog B) :
  exists rest,
    requests (log (run w (bind (sevDeskClient rt) f) initial).1)
    = secret_request rt :: rest.
Proof.
  unfold sevDeskClient, accessSecretVersion, await. cbn [mbind prog_bind bind run].
  match goal with |- context [run w ?p ?s] =>
    destruct (run_requests_grow w p s) as [more ->] end.
  rewrite requests_await. exists more. reflexivity.
Qed.

(** X8.  The paid and the voided handler send nothing at all exactly when
    the invoice's metadata is [null] or its [sevdesk_id] entry is [null];
    they then reject with ['No SevDesk link found.'].  In every other case,
    a missing key included, the first request sent is the lookup of the API
    key. *)
Theorem nothing_sent_iff_guard (rt : runtime) (w : world) (invoice : Invoice.t) :
  let nulled :=
    Invoice.metadata invoice = None
    \/ exists m, Invoice.metadata invoice = Some m /\ m !! "sevdesk_id" = Some None in
  (requests (log (run w (onInvoicePaid rt invoice) initial).1) = [] <-> nulled)
  /\ (requests (log (run w (onInvoiceVoided rt invoice) initial).1) = [] <-> nulled)
  /\ (run w (onInvoicePaid rt invoice) initial
        = (initial, Fail (Error "No SevDesk link found.")) <-> nulled)
  /\ (run w (onInvoiceVoided rt invoice) initial
        = (initial, Fail (Error "No SevDesk link found.")) <-> nulled)
  /\ (nulled
      \/ exists paid voided,
           requests (log (run w (onInvoicePaid rt invoice) initial).1)
           = secret_request rt :: paid
           /\ requests (log (run w (onInvoiceVoided rt invoice) initial).1)
              = secret_request rt :: voided).
Proof.
  cbv zeta. rewrite <- no_link_iff.
  unfold onInvoicePaid, onInvoiceVoided.
  destruct (no_link (Invoice.metadata invoice)) eqn:Hno.
  - repeat split; auto.
  - rewrite (guarded_link _ Hno). unfold mbind, prog_bind. cbn [lift bind].
    split; [|split; [|split; [|split]]].
    + split; [|discriminate]. intros H. exfalso.
      eapply run_sevDeskClient_sends; exact H.
    + split; [|discriminate]. intros H. exfalso.
      eapply run_sevDeskClient_sends; exact H.
    + split; [|discriminate]. intros H. exfalso.
      eapply run_sevDeskClient_sends. rewrite H. reflexivity.
    + split; [|discriminate]. intros H. exfalso.
      eapply run_sevDeskClient_sends. rewrite H. reflexivity.
    + right.
      match goal with |- context [run w (bind (sevDeskClient rt) ?f) initial] =>
        destruct (run_sevDeskClient_first w rt f) as [paid Hpaid] end.
      exists paid.
      match goal with
      |- exists voided, _ /\ requests (log (run w (bind (sevDeskClient rt) ?g) initial).1) = _ =>
        destruct (run_sevDeskClient_first w rt g) as [voided Hvoided] end.
      exists voided. split; assumption.
Qed.

(** X9.  In no run do the paid and the voided handler send a request to the
    payment platform: they read no customer and write no metadata. *)
Theorem paid_and_voided_leave_stripe_alone (rt : runtime) (w : world)
    (invoice : Invoice.t) :
  Forall (fun c => is_stripe c = false)
         (requests (log (run w (onInvoicePaid rt invoice) initial).1))
  /\ Forall (fun c => is_stripe c = false)
            (requests (log (run w (onInvoiceVoided rt invoice) initial).1)).
Proof.
  split; apply sends_initial.
  - unfold onInvoicePaid. destruct (no_link _); [exact I|].
    unfold mbind, prog_bind. apply sends_bind; [apply sends_lift|]. intros invoiceId.
    apply sends_bind; [apply sends_sevDeskClient; reflexivity|]. intros client.
    unfold put, mbind, prog_bind.
    apply sends_bind; [apply sends_await; reflexivity | intros; exact I].
  - unfold onInvoiceVoided. destruct (no_link _); [exact I|].
    unfold mbind, prog_bind. apply sends_bind; [apply sends_lift|]. intros invoiceId.
    apply sends_bind; [apply sends_sevDeskClient; reflexivity|]. intros client.
    unfold post, mbind, prog_bind.
    apply sends_bind; [apply sends_await; reflexivity | intros; exact I].
Qed.

(** ** Creating a contact *)

(** X10.  The create path of [createOrUpdateContact], whatever the
    collaborators answer, stops at the first failure and rejects: it sends
    the lookup of the API key; then, if that resolved, the creation of the
    contact; then, only if the creation was fulfilled with a body whose [id]
    can be read, the write-back of that very id into the customer's
    metadata, as whose settlement it settles.  No linkage is written without
    a created contact. *)
Theorem contact_creation_steps (rt : runtime) (w : world) (customer : Customer.t) :
  let r := run w (createOrUpdateContact rt customer MUndefined) initial in
  (exists e, r.2 = Fail e /\ requests (log r.1) = [secret_request rt])
  \/ (exists apiKey e,
        r.2 = Fail e
        /\ requests (log r.1) =
             [secret_request rt;
              client_post (sevdesk apiKey) "/Contact" (contact_data customer)])
  \/ (exists apiKey body id,
        reply w [Requested (secret_request rt);
                 Requested (client_post (sevdesk apiKey) "/Contact"
                              (contact_data customer))]
          (client_post (sevdesk apiKey) "/Contact" (contact_data customer)) = Ok body
        /\ jget body "id" = Ok id
        /\ requests (log r.1) =
             [secret_request rt;
              client_post (sevdesk apiKey) "/Contact" (contact_data customer);
              write_back customer id]
        /\ r.2 = reply w (log r.1) (write_back customer id)).
Proof.
  cbv zeta. unfold createOrUpdateContact, sevDeskClient, accessSecretVersion, await.
  unfold post, await, mbind, prog_bind. cbn [bind].
  rewrite run_await_idle by reflexivity.
  fold (secret_request rt). cbn [log emit initial app].
  destruct (reply w [Requested (secret_request rt)] (secret_request rt))
    as [apiKey|e]; cbn [bind]; [|left; eexists; split; reflexivity].
  right. fold (sevdesk apiKey). rewrite run_await_idle by reflexivity.
  cbn [log emit initial app].
  destruct (reply w _ (client_post (sevdesk apiKey) "/Contact" (contact_data customer)))
    as [body|e] eqn:Hpost; cbn [bind];
    [|left; eexists _, _; split; reflexivity].
  rewrite data_id_response.
  destruct (jget body "id") as [id|e] eqn:Hid; cbn [lift bind];
    [|left; eexists _, _; split; reflexivity].
  right. exists apiKey, body, id. rewrite run_await_idle by reflexivity.
  fold (write_back customer id). cbn [log emit initial app].
  split; [exact Hpost|]. split; [exact Hid|].
  destruct (reply w _ (write_back customer id)) eqn:Hback;
    (split; [reflexivity|]); symmetry; exact Hback.
Qed.

(** ** Filing an invoice *)


Lemma run_file_single (w : world) (invoice : Invoice.t) (client : AxiosInstance)
    (contactId : jsval) (s : state) :
  Forall (fun line => (tax_rates line <= 1)%nat) (Invoice.lines invoice) ->
  exists s1,
    run w (file invoice client contactId) s =
      run w (save_invoice client invoice contactId
               (map posted_item (Invoice.lines invoice))) s1
    /\ requests (log s1) =
         requests (log s) ++ flat_map rate_lookups (Invoice.lines invoice).
Proof.
  intros Hall. unfold file. rewrite run_bind.
  destruct (run_invoice_items w _ s Hall) as [s1 [-> Hs1]]. eauto.
Qed.





Lemma before_filing_not_save (c : call) : before_filing c -> is_save c = false.
Proof.
  intros [H|[rate ->]]; [|reflexivity].
  destruct c; simpl in *; try reflexivity; try contradiction. rewrite H. reflexivity.
Qed.

Lemma filter_save_before_filing (l : list call) :
  Forall before_filing l -> List.filter is_save l = [].
Proof.
  induction 1 as [|c l Hc _ IH]; simpl; [reflexivity|].
  rewrite (before_filing_not_save c Hc). exact IH.
Qed.

(** X12.  No run of the Invoice-Finalized handler sends the invoice-creation
    call more than once. *)
Theorem finalized_files_at_most_once (rt : runtime) (w : world) (invoice : Invoice.t) :
  (List.length
     (List.filter is_save
        (requests (log (run w (onInvoiceFinalized rt invoice) initial).1))) <= 1)%nat.
Proof.
  rewrite run_finalized.
  pose proof (sends_initial preparing w _ (sends_prepare rt invoice)) as Hpre.
  assert (Hpre' : forall s1, Forall preparing (requests (log s1)) ->
                             List.filter is_save (requests (log s1)) = []).
  { intros s1 H. apply filter_save_before_filing.
    eapply Forall_impl; [exact H|]. intros c Hc. left. exact Hc. }
  destruct (run w (prepare rt invoice) initial) as [s1 [[client contactId]|e]];
    cbn [fst] in Hpre.
  - destruct (run_file w invoice client contactId s1)
      as [lookups [tail [-> [Hlookups [_ [_ Htail]]]]]].
    rewrite !List.filter_app, (Hpre' s1 Hpre). cbn [app].
    rewrite (filter_save_before_filing lookups).
    + unfold save_request, link_invoice in Htail.
      destruct Htail as [->|[->|[invoiceId ->]]]; simpl; lia.
    + eapply Forall_impl; [exact Hlookups|]. intros c Hc. right. exact Hc.
  - cbn [fst]. rewrite (Hpre' s1 Hpre). simpl. lia.
Qed.

(** X13.  Every invoice-creation call, in any run, carries the invoice's
    number and creation date, the fixed status 200, invoice type ['RE'] and
    send type ['VM'], zero delivery dates and discount, a contact reference
    of object name ['Contact'], and one line item per invoice line, in the
    order of the lines, each with the line's quantity, amount (as price) and
    description (as name). *)
Theorem saved_invoice_document (rt : runtime) (w : world) (invoice : Invoice.t)
    (client : AxiosInstance) (data : jsval) :
  In (client_post client "/Invoice/Factory/saveInvoice" data)
     (requests (log (run w (onInvoiceFinalized rt invoice) initial).1)) ->
  exists fields contact items,
    jget data "invoice" = Ok fields
    /\ jget fields "invoiceNumber" = Ok (of_string (Invoice.number invoice))
    /\ jget fields "invoiceDate" = Ok (JInt (Invoice.created invoice))
    /\ jget fields "status" = Ok (JInt 200)
    /\ jget fields "invoiceType" = Ok (JStr "RE")
    /\ jget fields "sendType" = Ok (JStr "VM")
    /\ jget fields "deliveryDate" = Ok (JInt 0)
    /\ jget fields "deliveryDateUntil" = Ok (JInt 0)
    /\ jget fields "discount" = Ok (JInt 0)
    /\ jget fields "contact" = Ok contact
    /\ jget contact "objectName" = Ok (JStr "Contact")
    /\ jget data "invoicePosSave" = Ok (JArr items)
    /\ Forall2 (fun line item =>
                  jget item "quantity" = Ok (of_number (InvoiceLineItem.quantity line))
                  /\ jget item "price" = Ok (JInt (InvoiceLineItem.amount line))
                  /\ jget item "name" = Ok (of_string (InvoiceLineItem.description line))
                  /\ jget item "objectName" = Ok (JStr "InvoicePos"))
               (Invoice.lines invoice) items.
Proof.
  intros Hin. destruct (every_saved_invoice rt w invoice client data Hin) as [contactId ->].
  eexists _, _, _. repeat (split; [reflexivity|]). clear Hin.
  induction (Invoice.lines invoice) as [|line lines IH]; simpl; constructor.
  - repeat split; reflexivity.
  - exact IH.
Qed.

Lemma saved_invoice_document_witness :
  let invoice := Sample.invoice [Sample.line ["txr_1"]; Sample.line []]
                   (Some Sample.no_key) in
  exists fields contact items,
    jget (invoice_data invoice (JStr "42") (map posted_item (Invoice.lines invoice)))
      "invoice" = Ok fields
    /\ jget fields "invoiceNumber" = Ok (JStr "A-1")
    /\ jget fields "invoiceDate" = Ok (JInt 1700000000)
    /\ jget fields "status" = Ok (JInt 200)
    /\ jget fields "invoiceType" = Ok (JStr "RE")
    /\ jget fields "sendType" = Ok (JStr "VM")
    /\ jget fields "deliveryDate" = Ok (JInt 0)
    /\ jget fields "deliveryDateUntil" = Ok (JInt 0)
    /\ jget fields "discount" = Ok (JInt 0)
    /\ jget fields "contact" = Ok contact
    /\ jget contact "objectName" = Ok (JStr "Contact")
    /\ jget (invoice_data invoice (JStr "42") (map posted_item (Invoice.lines invoice)))
         "invoicePosSave" = Ok (JArr items)
    /\ Forall2 (fun line item =>
                  jget item "quantity" = Ok (of_number (InvoiceLineItem.quantity line))
                  /\ jget item "price" = Ok (JInt (InvoiceLineItem.amount line))
                  /\ jget item "name" = Ok (of_string (InvoiceLineItem.description line))
                  /\ jget item "objectName" = Ok (JStr "InvoicePos"))
               (Invoice.lines invoice) items.
Proof.
  cbv zeta.
  apply (saved_invoice_document Sample.rt
           (Sample.world_with (Sample.customer (Some (Sample.linked_to "42"))) JNull)
           (Sample.invoice [Sample.line ["txr_1"]; Sample.line []] (Some Sample.no_key))
           (sevdesk "key")).
  vm_compute. right. right. right. left. reflexivity.
Defined.

(** X14.  For a customer the guard lets through, with the API key and the
    customer at hand and no line item of several tax rates: after the two
    lookups the handler sends one tax-rate lookup for each line item that
    carries exactly one tax rate, in the order of the lines and none for the
    other lines, and then, without waiting for any of them, the
    invoice-creation call. *)
Theorem rate_lookups_precede_filing (rt : runtime) (w : world) (invoice : Invoice.t)
    (apiKey : string) (customer : Customer.t) :
  secret_is w rt apiKey ->
  customer_is w invoice customer ->
  no_link (Customer.metadata customer) = false ->
  Forall (fun line => (tax_rates line <= 1)%nat) (Invoice.lines invoice) ->
  exists tail,
    requests (log (run w (onInvoiceFinalized rt invoice) initial).1) =
      [secret_request rt; stripe_customers_retrieve (Invoice.customer invoice)]
      ++ flat_map rate_lookups (Invoice.lines invoice)
      ++ save_request (sevdesk apiKey) invoice
           (mval_js (link (Customer.metadata customer))) :: tail
    /\ Forall (fun c => exists invoiceId, c = link_invoice invoice invoiceId) tail.
Proof.
  intros Hkey Hcustomer Hno Hall. rewrite run_finalized.
  rewrite (run_prepare_linked rt w invoice apiKey customer) by assumption.
  destruct (run_file_single w invoice (sevdesk apiKey)
              (mval_js (link (Customer.metadata customer))) (retrieved rt invoice) Hall)
    as [s1 [-> Hs1]].
  destruct (run_save_invoice w (sevdesk apiKey) invoice
              (mval_js (link (Customer.metadata customer)))
              (map posted_item (Invoice.lines invoice)) s1) as [H|[invoiceId H]];
    cbv zeta in H; rewrite H, Hs1.
  - exists []. split; [|constructor].
    rewrite <- app_assoc. reflexivity.
  - exists [link_invoice invoice invoiceId]. split.
    + rewrite <- app_assoc. reflexivity.
    + repeat constructor. eexists. reflexivity.
Qed.

Lemma rate_lookups_precede_filing_witness :
  let invoice := Sample.invoice
                   [Sample.line ["txr_1"]; Sample.line []; Sample.line ["txr_3"]]
                   (Some Sample.no_key) in
  let customer := Sample.customer (Some (Sample.linked_to "42")) in
  exists tail,
    requests (log (run (Sample.world_with customer JNull)
                     (onInvoiceFinalized Sample.rt invoice) initial).1) =
      [secret_request Sample.rt; stripe_customers_retrieve "cus_1"]
      ++ [stripe_taxRates_retrieve "txr_1"; stripe_taxRates_retrieve "txr_3"]
      ++ save_request (sevdesk "key") invoice (JStr "42") :: tail
    /\ Forall (fun c => exists invoiceId, c = link_invoice invoice invoiceId) tail.
Proof.
  cbv zeta.
  apply (rate_lookups_precede_filing Sample.rt
           (Sample.world_with (Sample.customer (Some (Sample.linked_to "42"))) JNull)
           (Sample.invoice
              [Sample.line ["txr_1"]; Sample.line []; Sample.line ["txr_3"]]
              (Some Sample.no_key))
           "key" (Sample.customer (Some (Sample.linked_to "42")))).
  - intros history. reflexivity.
  - intros history. reflexivity.
  - vm_compute. reflexivity.
  - repeat constructor.
Defined.

(** The [map] stops at the first line item of several tax rates: the lines
    before it have had their lookups sent, the lines after it are not looked
    at. *)
Lemma run_invoice_items_stop (w : world) (before after : list InvoiceLineItem.t)
    (bad : InvoiceLineItem.t) (s : state) :
  Forall (fun line => (tax_rates line <= 1)%nat) before ->
  (2 <= tax_rates bad)%nat ->
  exists s',
    run w (map_prog invoice_item (before ++ bad :: after)) s = (s', Fail multiple_rates)
    /\ requests (log s') = requests (log s) ++ flat_map rate_lookups before.
Proof.
  intros Hbefore Hbad. revert s.
  induction Hbefore as [|line before Hline _ IH]; intros s;
    cbn [app map_prog]; unfold mbind, prog_bind; rewrite run_bind.
  - destruct (run_invoice_item_multi w bad s Hbad) as [s1 [-> Hs1]].
    exists s1. rewrite Hs1. split; [reflexivity|]. symmetry. apply app_nil_r.
  - destruct (run_invoice_item w line s Hline) as [s1 [-> Hs1]].
    rewrite run_bind. destruct (IH s1) as [s2 [-> Hs2]].
    exists s2. split; [reflexivity|].
    rewrite Hs2, Hs1. cbn [flat_map]. symmetry. apply app_assoc.
Qed.

(** X15.  For a customer the guard lets through, with the API key and the
    customer at hand: when a line item carries two or more tax rates, the
    handler rejects with the validation error after having sent the two
    lookups and the tax-rate lookups of the lines before the first such line
    item, and nothing for it or for the lines after it. *)
Theorem multi_rate_line_stops_mapping (rt : runtime) (w : world) (invoice : Invoice.t)
    (apiKey : string) (customer : Customer.t)
    (before after : list InvoiceLineItem.t) (bad : InvoiceLineItem.t) :
  secret_is w rt apiKey ->
  customer_is w invoice customer ->
  no_link (Customer.metadata customer) = false ->
  Invoice.lines invoice = before ++ bad :: after ->
  Forall (fun line => (tax_rates line <= 1)%nat) before ->
  (2 <= tax_rates bad)%nat ->
  let r := run w (onInvoiceFinalized rt invoice) initial in
  r.2 = Fail (Error "Multiple tax rates per item are not supported.")
  /\ requests (log r.1) =
       [secret_request rt; stripe_customers_retrieve (Invoice.customer invoice)]
       ++ flat_map rate_lookups before.
Proof.
  intros Hkey Hcustomer Hno Hlines Hbefore Hbad. cbv zeta. rewrite run_finalized.
  rewrite (run_prepare_linked rt w invoice apiKey customer) by assumption.
  unfold file. rewrite run_bind, Hlines.
  destruct (run_invoice_items_stop w before after bad (retrieved rt invoice)
              Hbefore Hbad) as [s1 [-> Hs1]].
  split; [reflexivity|]. exact Hs1.
Qed.

Lemma multi_rate_line_stops_mapping_witness :
  let invoice := Sample.invoice
                   [Sample.line ["txr_1"]; Sample.line ["txr_2"; "txr_3"];
                    Sample.line ["txr_4"]]
                   (Some Sample.no_key) in
  let customer := Sample.customer (Some (Sample.linked_to "42")) in
  let r := run (Sample.world_with customer JNull)
             (onInvoiceFinalized Sample.rt invoice) initial in
  r.2 = Fail (Error "Multiple tax rates per item are not supported.")
  /\ requests (log r.1) =
       [secret_request Sample.rt; stripe_customers_retrieve "cus_1"]
       ++ [stripe_taxRates_retrieve "txr_1"].
Proof.
  cbv zeta.
  apply (multi_rate_line_stops_mapping Sample.rt
           (Sample.world_with (Sample.customer (Some (Sample.linked_to "42"))) JNull)
           (Sample.invoice
              [Sample.line ["txr_1"]; Sample.line ["txr_2"; "txr_3"];
               Sample.line ["txr_4"]]
              (Some Sample.no_key))
           "key" (Sample.customer (Some (Sample.linked_to "42")))
           [Sample.line ["txr_1"]] [Sample.line ["txr_4"]]
           (Sample.line ["txr_2"; "txr_3"])).
  - intros history. reflexivity.
  - intros history. reflexivity.
  - vm_compute. reflexivity.
  - reflexivity.
  - repeat constructor.
  - vm_compute. lia.
Defined.

(** X16.  When the payment platform rejects the retrieval of the invoice's
    customer, the Invoice-Finalized handler rejects with that reason,
    unchanged, having sent the two lookups only: no contact and no invoice is
    created. *)
Theorem customer_lookup_failure_aborts (rt : runtime) (w : world) (invoice : Invoice.t)
    (apiKey : string) (e : exn) :
  secret_is w rt apiKey ->
  (forall history,
     reply w history (stripe_customers_retrieve (Invoice.customer invoice)) = Fail e) ->
  run w (onInvoiceFinalized rt invoice) initial = (retrieved rt invoice, Fail e).
Proof.
  intros Hkey Hcustomer. unfold onInvoiceFinalized, mbind, prog_bind.
  rewrite run_sevDeskClient with (apiKey := apiKey) by auto.
  unfold await. cbn [bind]. rewrite run_await_idle by reflexivity.
  rewrite Hcustomer. reflexivity.
Qed.

Lemma customer_lookup_failure_aborts_witness :
  let invoice := Sample.invoice [Sample.line ["txr_1"]] (Some Sample.no_key) in
  run Outage.no_customer (onInvoiceFinalized Sample.rt invoice) initial =
    (retrieved Sample.rt invoice, Fail Outage.not_found).
Proof.
  cbv zeta.
  apply (customer_lookup_failure_aborts Sample.rt Outage.no_customer
           (Sample.invoice [Sample.line ["txr_1"]] (Some Sample.no_key)) "key"
           Outage.not_found).
  - intros history. reflexivity.
  - intros history. reflexivity.
Defined.

(** X17.  Under the same conditions as X14, when the accounting platform
    rejects the invoice-creation call, the handler rejects with the reason
    of that rejection, unchanged, and the creation call is the last request
    it sent: nothing is written back to the payment-platform invoice. *)
Theorem rejected_creation_not_linked (rt : runtime) (w : world) (invoice : Invoice.t)
    (apiKey : string) (customer : Customer.t) (e : exn) :
  secret_is w rt apiKey ->
  customer_is w invoice customer ->
  no_link (Customer.metadata customer) = false ->
  Forall (fun line => (tax_rates line <= 1)%nat) (Invoice.lines invoice) ->
  (forall history,
     reply w history
       (save_request (sevdesk apiKey) invoice
          (mval_js (link (Customer.metadata customer)))) = Fail e) ->
  let r := run w (onInvoiceFinalized rt invoice) initial in
  r.2 = Fail e
  /\ requests (log r.1) =
       [secret_request rt; stripe_customers_retrieve (Invoice.customer invoice)]
       ++ flat_map rate_lookups (Invoice.lines invoice)
       ++ [save_request (sevdesk apiKey) invoice
             (mval_js (link (Customer.metadata customer)))].
Proof.
  intros Hkey Hcustomer Hno Hall Hsave. cbv zeta. rewrite run_finalized.
  rewrite (run_prepare_linked rt w invoice apiKey customer) by assumption.
  destruct (run_file_single w invoice (sevdesk apiKey)
              (mval_js (link (Customer.metadata customer))) (retrieved rt invoice) Hall)
    as [s1 [-> Hs1]].
  unfold save_invoice. rewrite run_try_rethrow.
  unfold post, await, mbind, prog_bind. cbn [bind run].
  fold (save_request (sevdesk apiKey) invoice
          (mval_js (link (Customer.metadata customer)))).
  rewrite Hsave. cbn [bind run fst snd]. split; [reflexivity|].
  rewrite requests_await, Hs1, <- app_assoc. reflexivity.
Qed.

Lemma rejected_creation_not_linked_witness :
  let invoice := Sample.invoice [Sample.line ["txr_1"]] (Some Sample.no_key) in
  let customer := Sample.customer (Some (Sample.linked_to "42")) in
  let r := run (Outage.no_accounting customer)
             (onInvoiceFinalized Sample.rt invoice) initial in
  r.2 = Fail Outage.unprocessable
  /\ requests (log r.1) =
       [secret_request Sample.rt; stripe_customers_retrieve "cus_1"]
       ++ [stripe_taxRates_retrieve "txr_1"]
       ++ [save_request (sevdesk "key") invoice (JStr "42")].
Proof.
  cbv zeta.
  apply (rejected_creation_not_linked Sample.rt
           (Outage.no_accounting (Sample.customer (Some (Sample.linked_to "42"))))
           (Sample.invoice [Sample.line ["txr_1"]] (Some Sample.no_key))
           "key" (Sample.customer (Some (Sample.linked_to "42")))
           Outage.unprocessable).
  - intros history. reflexivity.
  - intros history. reflexivity.
  - vm_compute. reflexivity.
  - repeat constructor.
  - intros history. reflexivity.
Defined.

(** ** Updating a linked customer *)

(** X18.  For a customer with a linkage id, no run of the Customer-Updated
    handler sends anything but the lookup of the API key and the update of
    the linked contact with the customer's payload: it never creates a
    contact and never writes to the payment platform. *)
Theorem linked_customer_only_updated (rt : runtime) (w : world) (customer : Customer.t)
    (id : string) :
  linkage_id (Customer.metadata customer) = Some id ->
  Forall (fun c =>
            c = secret_request rt
            \/ exists client,
                 c = client_put client ("/Contact/" +:+ id) (contact_data customer))
         (requests (log (run w (onCustomerUpdated rt customer) initial).1)).
Proof.
  intros Hid. destruct (linked_link _ _ Hid) as [Hno Hlink].
  apply sends_initial. unfold onCustomerUpdated.
  rewrite Hno, (guarded_link _ Hno), Hlink.
  unfold createOrUpdateContact, mbind, prog_bind. cbn [lift bind].
  apply sends_bind.
  - unfold sevDeskClient, accessSecretVersion, mbind, prog_bind.
    repeat (apply sends_bind; [|intros; try exact I]).
    apply sends_await. left. reflexivity.
  - intros client. unfold put, mbind, prog_bind. cbn [mval_string].
    apply sends_bind; [|intros; exact I]. apply sends_await.
    right. exists client. reflexivity.
Qed.

Lemma linked_customer_only_updated_witness :
  let customer := Sample.customer (Some (Sample.linked_to "42")) in
  Forall (fun c =>
            c = secret_request Sample.rt
            \/ exists client,
                 c = client_put client ("/Contact/" +:+ "42") (contact_data customer))
         (requests (log (run (Outage.no_accounting customer)
                           (onCustomerUpdated Sample.rt customer) initial).1)).
Proof.
  cbv zeta.
  apply (linked_customer_only_updated Sample.rt
           (Outage.no_accounting (Sample.customer (Some (Sample.linked_to "42"))))
           (Sample.customer (Some (Sample.linked_to "42"))) "42").
  vm_compute. reflexivity.
Defined.

(** ** The callbacks on a handler's promise *)

(** X19.  A verified [invoice.paid] or [invoice.voided] event for an invoice
    whose metadata, or its [sevdesk_id] entry, is [null] is answered twice.
    The handler rejects at once, so its callbacks run before the response of
    line 77 is ended: after the 400 ['Event type not supported'] and the
    thrown ['Unhandled event type <type>'], [handleError] logs the (missing)
    [response] of the error, writes 500 [{error: true, message: 'No SevDesk
    link found.'}] and throws ['An error occurred'], which nothing catches.
    No request is sent. *)
Theorem guarded_event_answered_twice (rt : runtime)
    (constructEvent : string -> option string -> option string -> verification)
    (w : world) (req : Request) (invoice : Invoice.t) (paid : bool) :
  let event := if paid then {| type := "invoice.paid"; object := invoice |}
               else {| type := "invoice.voided"; object := invoice |} in
  constructEvent (rawBody req) (stripe_signature req) (STRIPE_WEBHOOK_SECRET rt)
    = Verified event ->
  (Invoice.metadata invoice = None
   \/ exists m, Invoice.metadata invoice = Some m /\ m !! "sevdesk_id" = Some None) ->
  webhook rt constructEvent w req =
    ({| log := [Responded 400 (Text "Event type not supported");
                Uncaught (Error ("Unhandled event type " +:+ type event));
                Logged JUndefined;
                Responded 500
                  (Json (JObj [("error", JBool true);
                               ("message", JStr "No SevDesk link found.")]));
                Uncaught (Error "An error occurred")];
        vars := []; jobs := [] |},
     {| statusCode := 500; headersSent := true |}).
Proof.
  cbv zeta. intros Hv Hnull. apply no_link_iff in Hnull.
  unfold webhook. rewrite Hv. destruct paid.
  - rewrite (proj1 (proj2 (dispatch_cases rt invoice (Sample.customer None) JNull))).
    unfold onInvoicePaid. rewrite Hnull. reflexivity.
  - rewrite (proj1 (proj2 (proj2 (dispatch_cases rt invoice (Sample.customer None)
                                    JNull)))).
    unfold onInvoiceVoided. rewrite Hnull. reflexivity.
Qed.

Lemma guarded_event_answered_twice_witness :
  webhook Sample.rt
    (fun _ _ _ => Verified {| type := "invoice.paid";
                              object := Sample.invoice [] None |})
    (Sample.world_with (Sample.customer None) JNull) Sample.request =
    ({| log := [Responded 400 (Text "Event type not supported");
                Uncaught (Error "Unhandled event type invoice.paid");
                Logged JUndefined;
                Responded 500
                  (Json (JObj [("error", JBool true);
                               ("message", JStr "No SevDesk link found.")]));
                Uncaught (Error "An error occurred")];
        vars := []; jobs := [] |},
     {| statusCode := 500; headersSent := true |}).
Proof.
  apply (guarded_event_answered_twice Sample.rt
           (fun _ _ _ => Verified {| type := "invoice.paid";
                                     object := Sample.invoice [] None |})
           (Sample.world_with (Sample.customer None) JNull) Sample.request
           (Sample.invoice [] None) true).
  - reflexivity.
  - left. reflexivity.
Defined.

(** ** Witnesses of earlier general lemmas *)

Lemma tax_rate_always_omitted_witness :
  let invoice := Sample.invoice [Sample.line ["txr_1"]; Sample.line []]
                   (Some Sample.no_key) in
  exists items,
    jget (invoice_data invoice (JStr "42") (map posted_item (Invoice.lines invoice)))
      "invoicePosSave" = Ok (JArr items)
    /\ List.length items = List.length (Invoice.lines invoice)
    /\ Forall (fun item => jget item "taxRate" = Ok JNull) items.
Proof.
  cbv zeta.
  apply (tax_rate_always_omitted Sample.rt
           (Sample.world_with (Sample.customer (Some (Sample.linked_to "42"))) JNull)
           (Sample.invoice [Sample.line ["txr_1"]; Sample.line []] (Some Sample.no_key))
           (sevdesk "key")).
  vm_compute. right. right. right. left. reflexivity.
Defined.

Lemma keyless_invoice_sent_witness :
  let invoice := Sample.invoice [] (Some Sample.no_key) in
  let w := Sample.world_with (Sample.customer None) JNull in
  (exists data,
     requests (log (run w (onInvoicePaid Sample.rt invoice) initial).1) =
       [secret_request Sample.rt;
        client_put (sevdesk "key") "/Invoice/undefined/bookAmount" data])
  /\ requests (log (run w (onInvoiceVoided Sample.rt invoice) initial).1) =
       [secret_request Sample.rt;
        client_post (sevdesk "key") "/Invoice/undefined/cancelInvoice" JUndefined].
Proof.
  cbv zeta.
  apply (keyless_invoice_sent Sample.rt
           (Sample.world_with (Sample.customer None) JNull)
           (Sample.invoice [] (Some Sample.no_key)) "key" Sample.no_key).
  - intros history. reflexivity.
  - reflexivity.
  - vm_compute. reflexivity.
Defined.

Lemma keyless_customer_invoice_witness :
  let invoice := Sample.invoice [Sample.line ["txr_1"]] (Some Sample.no_key) in
  let customer := Sample.customer (Some Sample.no_key) in
  let sent := requests (log (run (Sample.world_with customer Sample.updated_customer)
                               (onInvoiceFinalized Sample.rt invoice) initial).1) in
  In (save_request (sevdesk "key") invoice JUndefined) sent
  /\ Forall (fun c => forall client url data,
               c = client_post client url data -> url <> "/Contact") sent.
Proof.
  cbv zeta.
  apply (keyless_customer_invoice Sample.rt
           (Sample.world_with (Sample.customer (Some Sample.no_key))
              Sample.updated_customer)
           (Sample.invoice [Sample.line ["txr_1"]] (Some Sample.no_key))
           "key" (Sample.customer (Some Sample.no_key)) Sample.no_key).
  - intros history. reflexivity.
  - intros history. reflexivity.
  - reflexivity.
  - vm_compute. reflexivity.
  - repeat constructor.
Defined.
